(** * scrape.py: the SEI search, harvest and download script

    A shallow embedding of [src/scrape.py].  The script drives a browser
    (Selenium), parses the rendered results table (BeautifulSoup) and
    fetches the linked PDF files (requests).  The browser, the remote
    site, the network and the operating system are outside the program:
    they are gathered in a record [Site] of responses, and the script is
    embedded as computations in a state-and-exception monad over a
    [World] that holds the browser session, the files on disk, standard
    output and the trace of the calls made to the outside. *)

From Stdlib Require Import Ascii String DecimalString.
From stdpp Require Import base list strings gmap.

Open Scope string_scope.
Open Scope list_scope.

(** ** Python strings

    A Python [str] is modelled as a [string] whose characters are the
    code points below 256. *)
Module Py.

(** [s.startswith(p)] *)
Definition startswith (s p : string) : bool := String.prefix p s.

(** [sub in s] *)
Fixpoint contains (s sub : string) : bool :=
  String.prefix sub s ||
  match s with
  | EmptyString => false
  | String _ s' => contains s' sub
  end.

Fixpoint interleave (new s : string) : string :=
  match s with
  | EmptyString => EmptyString
  | String c s' => String c (new +:+ interleave new s')
  end.

(** The scan of [str.replace] for a non-empty [old]: [skip] counts the
    characters of the occurrence just matched that are still to be
    dropped; occurrences are taken left to right and do not overlap. *)
Fixpoint replace_from (old new : string) (skip : nat) (s : string) : string :=
  match s with
  | EmptyString => EmptyString
  | String c s' =>
      match skip with
      | S k => replace_from old new k s'
      | 0%nat =>
          if String.prefix old s
          then new +:+ replace_from old new (String.length old - 1)%nat s'
          else String c (replace_from old new 0%nat s')
      end
  end.

(** [s.replace(old, new)]: every occurrence is replaced.  With an empty
    [old], Python puts [new] before every character and at the end. *)
Definition replace (s old new : string) : string :=
  match old with
  | EmptyString => new +:+ interleave new s
  | _ => replace_from old new 0%nat s
  end.

(** [c.isspace()] on the code points below 256. *)
Definition isspace (c : ascii) : bool :=
  let n := nat_of_ascii c in
  (((9 <=? n) && (n <=? 13)) || ((28 <=? n) && (n <=? 32))
   || (n =? 133) || (n =? 160))%nat.

Fixpoint lstrip (s : string) : string :=
  match s with
  | EmptyString => EmptyString
  | String c s' => if isspace c then lstrip s' else s
  end.

Fixpoint rstrip (s : string) : string :=
  match s with
  | EmptyString => EmptyString
  | String c s' =>
      match rstrip s' with
      | EmptyString => if isspace c then EmptyString else String c EmptyString
      | t => String c t
      end
  end.

(** [s.strip()] *)
Definition strip (s : string) : string := rstrip (lstrip s).

(** [str(n)] for a natural number. *)
Definition str_of_nat (n : nat) : string :=
  NilEmpty.string_of_uint (Nat.to_uint n).

(** Truth value of an optional string argument: [None] and the empty
    string are false. *)
Definition truthy (o : option string) : bool :=
  match o with
  | Some (String _ _) => true
  | _ => false
  end.

(** [os.path.join(a, b)] on POSIX for two components. *)
Definition path_join (a b : string) : string :=
  if startswith b "/" then b
  else match a with
       | EmptyString => b
       | _ => if String.eqb (String.substring (String.length a - 1)%nat 1%nat a) "/"
              then a +:+ b
              else a +:+ "/" +:+ b
       end.

End Py.

(** ** Exceptions and results *)

Inductive exn_class :=
| TimeoutException
| NoSuchElementException
| ElementNotInteractableException
| NoSuchWindowException
| JavascriptException
| WebDriverException
| RequestException
| OSError.

(** An exception: its class and the text [str(e)] gives. *)
Record exn := Exn { exn_class_of : exn_class; exn_str : string }.

Inductive result (A : Type) :=
| Ok (a : A)
| Raise (e : exn).
Arguments Ok {A} a.
Arguments Raise {A} e.

(** ** The rendered page *)

(** An [<input>] element of the search form. *)
Record Element := {
  el_id : string;
  el_type : string;
  el_value : string;
  el_interactable : bool
}.

(** The first [<a>] inside a cell, with its attributes. *)
Record Anchor := { a_attrs : gmap string string }.

(** A [<td>] cell: its text and the result of [cell.find('a')]. *)
Record Cell := { c_text : string; c_anchor : option Anchor }.

(** A [<tr>] row, as the list [row.find_all('td')]. *)
Definition Row := list Cell.

(** A [<table class="GridView">], as the list of its rows. *)
Definition Table := list Row.

Record Document := {
  doc_inputs : list Element;
  doc_tables : list Table
}.

(** The locators the script uses. *)
Inductive By :=
| By_ID (id : string)                  (* By.ID, id *)
| CSS_input_type (t : string)          (* input[type='t'] *)
| CSS_input_id_contains (s : string)   (* input[id*='s'] *)
| CSS_input_value (v : string).        (* input[value='v'] *)

Definition matches (by_ : By) (e : Element) : bool :=
  match by_ with
  | By_ID id => String.eqb (el_id e) id
  | CSS_input_type t => String.eqb (el_type e) t
  | CSS_input_id_contains s => Py.contains (el_id e) s
  | CSS_input_value v => String.eqb (el_value e) v
  end.

(** Index in [doc_inputs] of the first element a locator matches. *)
Fixpoint first_match (by_ : By) (es : list Element) : option nat :=
  match es with
  | [] => None
  | e :: es' => if matches by_ e then Some 0%nat else S <$> first_match by_ es'
  end.

(** A [WebElement] is a reference to an element of the document. *)
Definition WebElement := nat.

(** [WebElement] defines neither [__bool__] nor [__len__]: every
    instance is true. *)
Definition element_truthy (_ : WebElement) : bool := true.

(** ** Records harvested from the table *)

Record ResultRecord := {
  name : string;
  position : string;
  link : string
}.

(** ** The world *)

(** A browser window: its handle and the URL it shows. *)
Record Window := { win_handle : string; win_url : string }.

Record Response := { status_code : nat; content : list Byte.byte }.

(** Calls made to the browser, the network and the file system. *)
Inductive Event :=
| EGet (url : string)
| EWait (seconds : nat)
| ESleep (seconds : nat)
| ESendKeys (el : string) (text : string)
| EClick (el : string)
| EScreenshot (path : string)
| EScript (script : string)
| ESwitch (handle : string)
| EClose (handle : string)
| EHttpGet (url : string)
| EOpenWb (path : string)
| EMakedirs (path : string)
| EQuit.

Record World := {
  w_doc : Document;               (* document of the primary window *)
  w_windows : list Window;        (* open windows, in handle order *)
  w_focus : string;               (* handle the driver talks to *)
  w_files : gmap string (list Byte.byte);  (* files written by the script *)
  w_dirs : gset string;           (* directories *)
  w_stdout : list string;         (* printed lines, newest first *)
  w_trace : list Event            (* outside calls, newest first *)
}.

(** What is outside the program. *)
Record Site := {
  (* [webdriver.Chrome(...)]: the first window, or a failure *)
  site_launch : result Window;
  (* [driver.get(url)]: the document loaded *)
  site_get : string -> result Document;
  (* the document rendered after a click on the element of that index *)
  site_click : nat -> Document -> Document;
  (* [driver.execute_script(s)]: the windows open once the script ran
     and the wait is over, and the exception it raised, if any *)
  site_script : string -> list Window -> list Window * option exn;
  (* [requests.get(url)] *)
  site_http : string -> result Response;
  (* [open(path, 'wb')] and the write: the failure, if any *)
  site_open_wb : string -> option exn;
  (* [os.makedirs(path)]: the failure, if any *)
  site_makedirs : string -> option exn
}.

Definition with_doc (d : Document) (w : World) : World :=
  {| w_doc := d; w_windows := w_windows w; w_focus := w_focus w;
     w_files := w_files w; w_dirs := w_dirs w;
     w_stdout := w_stdout w; w_trace := w_trace w |}.

Definition with_windows (ws : list Window) (w : World) : World :=
  {| w_doc := w_doc w; w_windows := ws; w_focus := w_focus w;
     w_files := w_files w; w_dirs := w_dirs w;
     w_stdout := w_stdout w; w_trace := w_trace w |}.

Definition with_focus (h : string) (w : World) : World :=
  {| w_doc := w_doc w; w_windows := w_windows w; w_focus := h;
     w_files := w_files w; w_dirs := w_dirs w;
     w_stdout := w_stdout w; w_trace := w_trace w |}.

Definition with_files (fs : gmap string (list Byte.byte)) (w : World) : World :=
  {| w_doc := w_doc w; w_windows := w_windows w; w_focus := w_focus w;
     w_files := fs; w_dirs := w_dirs w;
     w_stdout := w_stdout w; w_trace := w_trace w |}.

Definition with_dirs (ds : gset string) (w : World) : World :=
  {| w_doc := w_doc w; w_windows := w_windows w; w_focus := w_focus w;
     w_files := w_files w; w_dirs := ds;
     w_stdout := w_stdout w; w_trace := w_trace w |}.

Definition put (line : string) (w : World) : World :=
  {| w_doc := w_doc w; w_windows := w_windows w; w_focus := w_focus w;
     w_files := w_files w; w_dirs := w_dirs w;
     w_stdout := line :: w_stdout w; w_trace := w_trace w |}.

Definition emit (e : Event) (w : World) : World :=
  {| w_doc := w_doc w; w_windows := w_windows w; w_focus := w_focus w;
     w_files := w_files w; w_dirs := w_dirs w;
     w_stdout := w_stdout w; w_trace := e :: w_trace w |}.

(** ** The monad of the script: state, with exceptions that keep the
    state reached when they were raised. *)

Definition M (A : Type) : Type := World -> World * result A.

Definition ret {A} (a : A) : M A := fun w => (w, Ok a).

Definition raise {A} (e : exn) : M A := fun w => (w, Raise e).

Definition bind {A B} (m : M A) (k : A -> M B) : M B :=
  fun w =>
    match m w with
    | (w1, Ok a) => k a w1
    | (w1, Raise e) => (w1, Raise e)
    end.

(** [try: m  except Exception as e: h e] *)
Definition try_except {A} (m : M A) (h : exn -> M A) : M A :=
  fun w =>
    match m w with
    | (w1, Ok a) => (w1, Ok a)
    | (w1, Raise e) => h e w1
    end.

(** [try: m  finally: f] *)
Definition try_finally {A} (m : M A) (f : M unit) : M A :=
  fun w =>
    match m w with
    | (w1, r) =>
        match f w1 with
        | (w2, Ok _) => (w2, r)
        | (w2, Raise e) => (w2, Raise e)
        end
    end.

Notation "x <- c1 ;; c2" := (bind c1 (fun x => c2))
  (at level 100, c1 at next level, c2 at level 200, right associativity).
Notation "c1 ;; c2" := (bind c1 (fun _ => c2))
  (at level 100, c2 at level 200, right associativity).

(** [if c: m] with no [else] *)
Definition when (c : bool) (m : M unit) : M unit := if c then m else ret tt.

(** [for x in xs: body x] *)
Fixpoint for_each {A} (xs : list A) (body : A -> M unit) : M unit :=
  match xs with
  | [] => ret tt
  | x :: xs' => body x ;; for_each xs' body
  end.

Definition print (line : string) : M unit := fun w => (put line w, Ok tt).

(** ** The calls to Selenium, requests and os *)

Definition handles (w : World) : list string := map win_handle (w_windows w).

Definition has_handle (h : string) (w : World) : bool :=
  existsb (String.eqb h) (handles w).

Definition type_into (i : nat) (text : string) (d : Document) : Document :=
  {| doc_inputs :=
       alter (fun e => {| el_id := el_id e; el_type := el_type e;
                          el_value := el_value e +:+ text;
                          el_interactable := el_interactable e |})
             i (doc_inputs d);
     doc_tables := doc_tables d |}.

Section Calls.

Variable site : Site.

(** [webdriver.Chrome(service=service, options=chrome_options)] *)
Definition webdriver_Chrome : M unit :=
  fun w =>
    match site_launch site with
    | Ok win => (with_focus (win_handle win) (with_windows [win] w), Ok tt)
    | Raise e => (w, Raise e)
    end.

(** [driver.get(url)] *)
Definition driver_get (url : string) : M unit :=
  fun w =>
    match site_get site url with
    | Ok d => (emit (EGet url) (with_doc d w), Ok tt)
    | Raise e => (emit (EGet url) w, Raise e)
    end.

(** [WebDriverWait(driver, secs).until(EC.presence_of_element_located(by))] *)
Definition wait_presence (secs : nat) (by_ : By) : M unit :=
  fun w =>
    match first_match by_ (doc_inputs (w_doc w)) with
    | Some _ => (emit (EWait secs) w, Ok tt)
    | None => (emit (EWait secs) w, Raise (Exn TimeoutException "Message: "))
    end.

(** [driver.find_element(by)]: raises when nothing matches. *)
Definition find_element (by_ : By) : M WebElement :=
  fun w =>
    match first_match by_ (doc_inputs (w_doc w)) with
    | Some i => (w, Ok i)
    | None =>
        (w, Raise (Exn NoSuchElementException
                       "Message: no such element: Unable to locate element"))
    end.

(** [element.send_keys(text)] *)
Definition send_keys (i : WebElement) (text : string) : M unit :=
  fun w =>
    match doc_inputs (w_doc w) !! i with
    | Some e =>
        if el_interactable e
        then (emit (ESendKeys (el_id e) text)
                   (with_doc (type_into i text (w_doc w)) w), Ok tt)
        else (w, Raise (Exn ElementNotInteractableException
                            "Message: element not interactable"))
    | None => (w, Raise (Exn WebDriverException
                             "Message: stale element reference"))
    end.

(** [element.click()] *)
Definition click (i : WebElement) : M unit :=
  fun w =>
    match doc_inputs (w_doc w) !! i with
    | Some e =>
        if el_interactable e
        then (emit (EClick (el_id e))
                   (with_doc (site_click site i (w_doc w)) w), Ok tt)
        else (w, Raise (Exn ElementNotInteractableException
                            "Message: element not interactable"))
    | None => (w, Raise (Exn WebDriverException
                             "Message: stale element reference"))
    end.

(** [driver.save_screenshot(path)] *)
Definition save_screenshot (path : string) : M unit :=
  fun w => (emit (EScreenshot path) w, Ok tt).

(** [time.sleep(secs)] *)
Definition sleep (secs : nat) : M unit :=
  fun w => (emit (ESleep secs) w, Ok tt).

(** [driver.find_elements(By.CSS_SELECTOR, "table.GridView")] *)
Definition find_elements_GridView : M (list Table) :=
  fun w => (w, Ok (doc_tables (w_doc w))).

(** [BeautifulSoup(driver.page_source, 'html.parser')] followed by
    [soup.select("table.GridView tr")]: the rows of every such table,
    in document order. *)
Definition select_GridView_tr : M (list Row) :=
  fun w => (w, Ok (concat (doc_tables (w_doc w)))).

(** [driver.execute_script(script)] *)
Definition execute_script (script : string) : M unit :=
  fun w =>
    let '(wins, err) := site_script site script (w_windows w) in
    let w1 := emit (EScript script) (with_windows wins w) in
    match err with
    | None => (w1, Ok tt)
    | Some e => (w1, Raise e)
    end.

(** [driver.window_handles] *)
Definition window_handles : M (list string) :=
  fun w => (w, Ok (handles w)).

(** [driver.switch_to.window(h)] *)
Definition switch_to_window (h : string) : M unit :=
  fun w =>
    if has_handle h w
    then (emit (ESwitch h) (with_focus h w), Ok tt)
    else (w, Raise (Exn NoSuchWindowException "Message: no such window")).

(** [driver.current_url] *)
Definition current_url : M string :=
  fun w =>
    match find (fun x => String.eqb (win_handle x) (w_focus w)) (w_windows w) with
    | Some x => (w, Ok (win_url x))
    | None => (w, Raise (Exn NoSuchWindowException
                             "Message: no such window: target window already closed"))
    end.

(** [driver.close()]: closes the window in focus. *)
Definition driver_close : M unit :=
  fun w =>
    if has_handle (w_focus w) w
    then (emit (EClose (w_focus w))
               (with_windows
                  (List.filter (fun x => negb (String.eqb (win_handle x) (w_focus w)))
                               (w_windows w)) w), Ok tt)
    else (w, Raise (Exn NoSuchWindowException
                        "Message: no such window: target window already closed")).

(** [driver.quit()] *)
Definition driver_quit : M unit :=
  fun w => (emit EQuit (with_windows [] w), Ok tt).

(** [requests.get(url)] *)
Definition requests_get (url : string) : M Response :=
  fun w => (emit (EHttpGet url) w, site_http site url).

(** [with open(path, 'wb') as f: f.write(data)] *)
Definition write_file (path : string) (data : list Byte.byte) : M unit :=
  fun w =>
    match site_open_wb site path with
    | None => (emit (EOpenWb path) (with_files (<[path := data]> (w_files w)) w), Ok tt)
    | Some e => (emit (EOpenWb path) w, Raise e)
    end.

(** [os.path.exists(path)] *)
Definition os_path_exists (path : string) : M bool :=
  fun w => (w, Ok (bool_decide (path ∈ w_dirs w)
                   || bool_decide (is_Some (w_files w !! path)))).

(** [os.makedirs(path)] *)
Definition os_makedirs (path : string) : M unit :=
  fun w =>
    match site_makedirs site path with
    | None => (emit (EMakedirs path) (with_dirs ({[ path ]} ∪ w_dirs w) w), Ok tt)
    | Some e => (emit (EMakedirs path) w, Raise e)
    end.

End Calls.

(** ** The script *)

(** [if arg: body], for an optional string argument. *)
Definition if_given (arg : option string) (body : string -> M unit) : M unit :=
  match arg with
  | Some s => if Py.truthy arg then body s else ret tt
  | None => ret tt
  end.

(** The body of the loop over [rows[1:]] in [search_sei] (lines 98-111):
    [cells] is [row.find_all('td')].  The patterns stand for the tests
    on [len(cells)]: [c0 :: c1 :: rest] is [len(cells) >= 2], with
    [cells[0] = c0], [cells[1] = c1], and [rest] starts with [cells[2]]
    when [len(cells) > 2]. *)
Definition harvest_row (results : list ResultRecord) (cells : Row)
  : list ResultRecord :=
  match cells with
  | c0 :: c1 :: rest =>
      let name_ := Py.strip (c_text c1) in
      let position_ :=
        match rest with
        | c2 :: _ => Py.strip (c_text c2)
        | [] => ""
        end in
      (* view_link = cells[0].find('a'); a Tag found is always true *)
      match c_anchor c0 with
      | Some view_link =>
          (* 'href' in view_link.attrs *)
          match a_attrs view_link !! "href" with
          | Some href =>
              results ++ [ {| name := name_; position := position_; link := href |} ]
          | None => results
          end
      | None => results
      end
  | _ => results
  end.

(** Lines 91-113: [results = []], the loop over [rows[1:]] and the
    list returned. *)
Definition harvest (rows : list Row) : list ResultRecord :=
  fold_left harvest_row (drop 1 rows) [].

Section Script.

Variable site : Site.

Definition setup_driver : M unit := webdriver_Chrome site.

(** [search_sei], lines 27-76: load the form, wait for it, fill it in
    and click the search button.  Of the four criteria only [first_name]
    and [last_name] occur in the body of [search_sei]. *)
Definition submit_search_form (first_name last_name : option string) : M unit :=
  driver_get site "https://www.ethics.webapps.ms.gov/SearchSEIForm.aspx" ;;
  print "Waiting for page to load..." ;;
  try_except
    (wait_presence 20 (CSS_input_type "text") ;;
     print "Page loaded successfully")
    (fun e =>
       print ("Error waiting for page to load: " +:+ exn_str e) ;;
       save_screenshot "debug_screenshot.png" ;;
       print "Saved debug screenshot" ;;
       raise e) ;;
  print "Filling out search form..." ;;
  try_except
    (if_given first_name (fun first_name =>
       first_name_field <- find_element (By_ID "ctl00_MainContentPlaceHolder_txtFirstName") ;;
       first_name_field <-
         (if negb (element_truthy first_name_field)
          then find_element (CSS_input_id_contains "FirstName")
          else ret first_name_field) ;;
       send_keys first_name_field first_name ;;
       print ("Entered first name: " +:+ first_name)) ;;
     if_given last_name (fun last_name =>
       last_name_field <- find_element (By_ID "ctl00_MainContentPlaceHolder_txtLastName") ;;
       last_name_field <-
         (if negb (element_truthy last_name_field)
          then find_element (CSS_input_id_contains "LastName")
          else ret last_name_field) ;;
       send_keys last_name_field last_name ;;
       print ("Entered last name: " +:+ last_name)) ;;
     search_button <- find_element (By_ID "ctl00_MainContentPlaceHolder_btnSearchSEI") ;;
     search_button <-
       (if negb (element_truthy search_button)
        then find_element (CSS_input_value "Search SEI")
        else ret search_button) ;;
     click site search_button ;;
     print "Clicked search button")
    (fun e =>
       print ("Error filling out form: " +:+ exn_str e) ;;
       save_screenshot "form_error_screenshot.png" ;;
       print "Saved form error screenshot" ;;
       raise e).

(** [search_sei], lines 78-113: wait, look for the results table and
    parse it. *)
Definition read_results : M (list ResultRecord) :=
  print "Waiting for results..." ;;
  sleep 5 ;;
  results_table <- find_elements_GridView ;;
  match results_table with
  | [] =>
      print "No results found." ;;
      ret []
  | _ =>
      rows <- select_GridView_tr ;;
      ret (harvest rows)
  end.

Definition search_sei (first_name last_name entity_type position : option string)
  : M (list ResultRecord) :=
  submit_search_form first_name last_name ;;
  read_results.

(** The filename of line 145, before it is joined to the directory. *)
Definition derived_filename (result : ResultRecord) : string :=
  Py.replace (name result) " " "_" +:+ "_"
  +:+ Py.replace (position result) " " "_" +:+ ".pdf".

(** The body of the [try] in [download_sei_pdfs] (lines 124-154).  The
    pattern [w0 :: w1 :: _] is [len(windows) > 1], with [windows[0] = w0]
    and [windows[1] = w1]. *)
Definition download_one (output_dir : string) (result : ResultRecord) : M unit :=
  let link_script := link result in
  when (Py.startswith link_script "javascript:")
    (let script := Py.replace link_script "javascript:" "" in
     execute_script site script ;;
     sleep 3 ;;
     windows <- window_handles ;;
     match windows with
     | w0 :: w1 :: _ =>
         switch_to_window w1 ;;
         pdf_url <- current_url ;;
         response <- requests_get site pdf_url ;;
         when (status_code response =? 200)%nat
           (let filename := derived_filename result in
            let filename := Py.path_join output_dir filename in
            write_file site filename (content response) ;;
            print ("Downloaded: " +:+ filename)) ;;
         driver_close ;;
         switch_to_window w0
     | _ => ret tt
     end).

(** One turn of the loop of [download_sei_pdfs]: the [try] with its
    [except Exception as e]. *)
Definition download_step (output_dir : string) (result : ResultRecord) : M unit :=
  try_except
    (download_one output_dir result)
    (fun e =>
       print ("Error downloading SEI for " +:+ name result +:+ ": " +:+ exn_str e)).

Definition download_sei_pdfs (results : list ResultRecord) (output_dir : string)
  : M unit :=
  present <- os_path_exists output_dir ;;
  when (negb present) (os_makedirs site output_dir) ;;
  for_each results (download_step output_dir).

Definition main : M unit :=
  setup_driver ;;
  try_finally
    (let first_name := "John" in
     let last_name := "Smith" in
     print ("Searching for SEI filings for " +:+ first_name +:+ " " +:+ last_name +:+ "...") ;;
     results <- search_sei (Some first_name) (Some last_name) None None ;;
     match results with
     | _ :: _ =>
         print ("Found " +:+ Py.str_of_nat (length results) +:+ " results.") ;;
         download_sei_pdfs results "sei_pdfs"
     | [] =>
         print "No results found."
     end)
    driver_quit.

End Script.

(** ** What a row contributes, read off the table

    These follow the description of the listing: a data row gives a
    record when it has two cells or more and the anchor of its first
    cell carries an [href]. *)

Definition row_href (cells : Row) : option string :=
  match cells with
  | c0 :: _ :: _ =>
      match c_anchor c0 with
      | Some a => a_attrs a !! "href"
      | None => None
      end
  | _ => None
  end.

Definition row_name (cells : Row) : string :=
  match cells with
  | _ :: c1 :: _ => Py.strip (c_text c1)
  | _ => ""
  end.

Definition row_position (cells : Row) : string :=
  match cells with
  | _ :: _ :: c2 :: _ => Py.strip (c_text c2)
  | _ => ""
  end.

Definition row_record (cells : Row) : option ResultRecord :=
  match row_href cells with
  | Some href =>
      Some {| name := row_name cells; position := row_position cells; link := href |}
  | None => None
  end.

(** The stripped script of a record. *)
Definition script_of (result : ResultRecord) : string :=
  Py.replace (link result) "javascript:" "".

(** The world once the script of a record ran without raising and the
    wait is over. *)
Definition after_script (result : ResultRecord) (wins : list Window) (w : World) : World :=
  emit (ESleep 3) (emit (EScript (script_of result)) (with_windows wins w)).

(** The world after a record whose script opened a second window and
    whose HTTP request returned a response. *)
Definition after_fetch (output_dir : string) (result : ResultRecord) (W0 W1 : Window) (rest : list Window)
    (resp : Response) (w : World) : World :=
  let path := Py.path_join output_dir (derived_filename result) in
  let saved := (status_code resp =? 200)%nat in
  {| w_doc := w_doc w;
     w_windows :=
       W0 :: List.filter (fun x => negb (String.eqb (win_handle x) (win_handle W1))) rest;
     w_focus := win_handle W0;
     w_files := if saved then <[path := content resp]> (w_files w) else w_files w;
     w_dirs := w_dirs w;
     w_stdout := if saved then ("Downloaded: " +:+ path) :: w_stdout w else w_stdout w;
     w_trace :=
       [ESwitch (win_handle W0); EClose (win_handle W1)]
       ++ (if saved then [EOpenWb path] else [])
       ++ [EHttpGet (win_url W1); ESwitch (win_handle W1); ESleep 3;
           EScript (script_of result)]
       ++ w_trace w |}.

Abbreviation search_url := "https://www.ethics.webapps.ms.gov/SearchSEIForm.aspx".
Abbreviation first_name_id := "ctl00_MainContentPlaceHolder_txtFirstName".
Abbreviation last_name_id := "ctl00_MainContentPlaceHolder_txtLastName".
Abbreviation search_button_id := "ctl00_MainContentPlaceHolder_btnSearchSEI".

(** The keystrokes a criterion causes in the field of that id. *)
Definition typed (arg : option string) (id : string) : list Event :=
  match arg with
  | Some s => if Py.truthy arg then [ESendKeys id s] else []
  | None => []
  end.

(** What [s.replace(' ', '_')] is said to give: every space becomes an
    underscore, every other character stays. *)
Fixpoint spaces_to_underscores (s : string) : string :=
  match s with
  | EmptyString => EmptyString
  | String c s' =>
      String (if Ascii.eqb c " " then "_"%char else c) (spaces_to_underscores s')
  end.

(** ** A sample site

    The search form as the script expects it, a listing, and the
    responses of a site that serves every PDF. *)
Module Sample.

Definition input (id type value : string) : Element :=
  {| el_id := id; el_type := type; el_value := value; el_interactable := true |}.

Definition form : Document :=
  {| doc_inputs :=
       [ input "ctl00_MainContentPlaceHolder_txtFirstName" "text" "";
         input "ctl00_MainContentPlaceHolder_txtLastName" "text" "";
         input "ctl00_MainContentPlaceHolder_btnSearchSEI" "submit" "Search SEI" ];
     doc_tables := [] |}.

(** A form whose first-name field has another id, one that the pattern
    [input[id*='FirstName']] matches. *)
Definition form_renamed : Document :=
  {| doc_inputs :=
       [ input "ctl00_Main_txtFirstName" "text" "";
         input "ctl00_MainContentPlaceHolder_txtLastName" "text" "";
         input "ctl00_MainContentPlaceHolder_btnSearchSEI" "submit" "Search SEI" ];
     doc_tables := [] |}.

Definition cell (text : string) : Cell := {| c_text := text; c_anchor := None |}.

Definition cell_link (text : string) (attrs : gmap string string) : Cell :=
  {| c_text := text; c_anchor := Some {| a_attrs := attrs |} |}.

(** The header row: its cells are [<th>], so it has no [<td>]. *)
Definition header : Row := [].

Definition row_smith : Row :=
  [ cell_link "View SEI" {[ "href" := "javascript:viewSEI('123')" ]};
    cell " John Smith "; cell "Governor" ].

Definition row_jones : Row :=
  [ cell_link "View SEI" {[ "href" := "javascript:viewSEI('456')" ]};
    cell "John Smith"; cell "Governor" ].

Definition row_short : Row := [ cell "No filings" ].

Definition row_no_anchor : Row := [ cell ""; cell "Jane Doe"; cell "Mayor" ].

Definition row_no_href : Row :=
  [ cell_link "View SEI" {[ "name" := "top" ]}; cell "Jane Doe"; cell "Mayor" ].

Definition pdf (b : Byte.byte) : Response := {| status_code := 200; content := [b] |}.

Definition not_found : Response := {| status_code := 404; content := [] |}.

(** Every script opens one more window, on a URL made from the script. *)
Definition opens_window (script : string) (ws : list Window)
  : list Window * option exn :=
  (ws ++ [ {| win_handle := "W" +:+ Py.str_of_nat (length ws);
              win_url := "https://www.ethics.webapps.ms.gov/" +:+ script |} ],
   None).

Definition site_of (page : Document) (tables : list Table)
    (script : string -> list Window -> list Window * option exn)
    (http : string -> result Response) : Site :=
  {| site_launch := Ok {| win_handle := "W0"; win_url := "data:," |};
     site_get := fun _ => Ok page;
     site_click := fun _ d => {| doc_inputs := doc_inputs d; doc_tables := tables |};
     site_script := script;
     site_http := http;
     site_open_wb := fun _ => None;
     site_makedirs := fun _ => None |}.

Definition serves (url : string) : result Response :=
  if Py.contains url "456" then Ok (pdf Byte.x02) else Ok (pdf Byte.x01).

Definition site : Site :=
  site_of form [[header; row_smith; row_short; row_jones]] opens_window serves.

Definition site_404 : Site :=
  site_of form [[header; row_smith]] opens_window (fun _ => Ok not_found).

Definition site_down : Site :=
  site_of form [[header; row_smith]] opens_window
    (fun _ => Raise (Exn RequestException "Connection refused")).

Definition site_no_table : Site := site_of form [] opens_window serves.

Definition site_renamed : Site :=
  site_of form_renamed [[header; row_smith]] opens_window serves.

Definition site_no_window : Site :=
  site_of form [[header; row_smith]] (fun _ ws => (ws, None)) serves.

(** A session with its one window open and nothing on disk. *)
Definition world : World :=
  {| w_doc := {| doc_inputs := []; doc_tables := [] |};
     w_windows := [ {| win_handle := "W0"; win_url := "data:," |} ];
     w_focus := "W0";
     w_files := ∅; w_dirs := ∅; w_stdout := []; w_trace := [] |}.

(** The same session once a listing is rendered. *)
Definition showing (tables : list Table) : World :=
  with_doc {| doc_inputs := doc_inputs form; doc_tables := tables |} world.

(** The session of [main] when the search starts. *)
Definition started : World :=
  put "Searching for SEI filings for John Smith..." world.

(** The sessions reached when the form was submitted, on the site with
    a listing and on the site that renders no table. *)
Definition listed : World :=
  fst (submit_search_form site (Some "John") (Some "Smith") started).

Definition unlisted : World :=
  fst (submit_search_form site_no_table (Some "John") (Some "Smith") started).

Definition smith : ResultRecord :=
  {| name := "John Smith"; position := "Governor";
     link := "javascript:viewSEI('123')" |}.

Definition jones : ResultRecord :=
  {| name := "John Smith"; position := "Governor";
     link := "javascript:viewSEI('456')" |}.

Definition plain_link : ResultRecord :=
  {| name := "Jane Doe"; position := "Mayor"; link := "ViewSEI.aspx?id=7" |}.

End Sample.

(** ** Vocabulary of the further properties *)

(** [link.startswith("javascript:")], the test of line 125. *)
Definition has_script (result : ResultRecord) : bool :=
  Py.startswith (link result) "javascript:".

(** The path of lines 145-146 for a record. *)
Definition record_path (output_dir : string) (result : ResultRecord) : string :=
  Py.path_join output_dir (derived_filename result).

(** The scripts executed in a trace, newest first. *)
Fixpoint scripts_run (trace : list Event) : list string :=
  match trace with
  | [] => []
  | EScript s :: trace' => s :: scripts_run trace'
  | _ :: trace' => scripts_run trace'
  end.

(** A string that does not start with a whitespace character. *)
Definition head_ok (s : string) : Prop :=
  match s with
  | EmptyString => True
  | String c _ => Py.isspace c = false
  end.

(** A string that does not end with a whitespace character. *)
Fixpoint last_ok (s : string) : Prop :=
  match s with
  | EmptyString => True
  | String c EmptyString => Py.isspace c = false
  | String _ s' => last_ok s'
  end.

(** The element with that id is in the document and can be typed into
    or clicked. *)
Definition ready (id : string) (d : Document) : bool :=
  match first_match (By_ID id) (doc_inputs d) with
  | Some i =>
      match doc_inputs d !! i with
      | Some e => el_interactable e
      | None => false
      end
  | None => false
  end.

(** The document once a criterion was typed into the field of that id. *)
Definition fill (arg : option string) (id : string) (d : Document) : Document :=
  match arg with
  | Some s =>
      if Py.truthy arg
      then match first_match (By_ID id) (doc_inputs d) with
           | Some i => type_into i s d
           | None => d
           end
      else d
  | None => d
  end.

(** More sample pages and sites. *)
Module Sample2.

(** A page on which no text input ever shows. *)
Definition form_blank : Document :=
  {| doc_inputs :=
       [ Sample.input "ctl00_MainContentPlaceHolder_btnSearchSEI" "submit" "Search SEI" ];
     doc_tables := [] |}.

Definition site_blank : Site :=
  Sample.site_of form_blank [] Sample.opens_window Sample.serves.

(** A form whose search button cannot be clicked. *)
Definition form_locked : Document :=
  {| doc_inputs :=
       [ Sample.input "ctl00_MainContentPlaceHolder_txtFirstName" "text" "";
         Sample.input "ctl00_MainContentPlaceHolder_txtLastName" "text" "";
         {| el_id := "ctl00_MainContentPlaceHolder_btnSearchSEI"; el_type := "submit";
            el_value := "Search SEI"; el_interactable := false |} ];
     doc_tables := [] |}.

Definition site_locked : Site :=
  Sample.site_of form_locked [] Sample.opens_window Sample.serves.

(** A site on which the output directory cannot be created. *)
Definition site_read_only : Site :=
  {| site_launch := site_launch Sample.site;
     site_get := site_get Sample.site;
     site_click := site_click Sample.site;
     site_script := site_script Sample.site;
     site_http := site_http Sample.site;
     site_open_wb := site_open_wb Sample.site;
     site_makedirs := fun _ => Some (Exn OSError "[Errno 13] Permission denied") |}.

(** A second table, whose first row is a linked row. *)
Definition second_table : Table := [ Sample.row_jones ].

Definition slash : ResultRecord :=
  {| name := "/tmp/x y"; position := "Clerk"; link := "javascript:viewSEI('9')" |}.

(** A site on which the file of a record whose name holds a slash cannot
    be opened, its directory not being there. *)
Definition site_no_subdir : Site :=
  {| site_launch := site_launch Sample.site;
     site_get := site_get Sample.site;
     site_click := site_click Sample.site;
     site_script := site_script Sample.site;
     site_http := site_http Sample.site;
     site_open_wb := fun path =>
       if Py.contains path "A/B"
       then Some (Exn OSError "[Errno 2] No such file or directory")
       else None;
     site_makedirs := site_makedirs Sample.site |}.

Definition first_filer : ResultRecord :=
  {| name := "A/B Trust"; position := "Trustee"; link := "javascript:viewSEI('123')" |}.

Definition second_filer : ResultRecord :=
  {| name := "Jane Doe"; position := "Mayor"; link := "javascript:viewSEI('456')" |}.

End Sample2.

(** * Properties *)

(** ** The harvest loop *)

Lemma harvest_row_record (results : list ResultRecord) (cells : Row) :
  harvest_row results cells = results ++ option_list (row_record cells).
Proof.
  unfold harvest_row, row_record, row_href, row_name, row_position.
  destruct cells as [|c0 [|c1 rest]]; simpl; try (by rewrite app_nil_r).
  destruct (c_anchor c0) as [a|]; simpl; try (by rewrite app_nil_r).
  destruct (a_attrs a !! "href") as [href|]; simpl; try (by rewrite app_nil_r).
  by destruct rest.
Qed.

Lemma omap_step {A B} (f : A -> option B) (x : A) (l : list A) :
  omap f (x :: l)
  = match f x with Some y => y :: omap f l | None => omap f l end.
Proof. reflexivity. Qed.

Lemma fold_harvest_row (rows : list Row) (acc : list ResultRecord) :
  fold_left harvest_row rows acc = acc ++ omap row_record rows.
Proof.
  revert acc. induction rows as [|row rows IH]; intros acc; simpl.
  - by rewrite app_nil_r.
  - rewrite IH, harvest_row_record.
    destruct (row_record row); simpl; by rewrite <- app_assoc.
Qed.

Lemma harvest_cons (hdr : Row) (data : list Row) :
  harvest (hdr :: data) = omap row_record data.
Proof. unfold harvest. simpl. by rewrite fold_harvest_row. Qed.

Lemma harvest_nil : harvest [] = [].
Proof. reflexivity. Qed.

Lemma omap_length_le {A B} (f : A -> option B) (l : list A) :
  length (omap f l) <= length l.
Proof.
  induction l as [|x l IH]; [done|].
  rewrite omap_step. destruct (f x); simpl; lia.
Qed.

Lemma row_record_short (cells : Row) :
  length cells < 2 -> row_record cells = None.
Proof.
  destruct cells as [|c0 [|c1 rest]]; simpl; intros; try done; lia.
Qed.

Lemma omap_filter_wide (data : list Row) :
  omap row_record (filter (fun r : Row => 2 <= length r) data)
  = omap row_record data.
Proof.
  induction data as [|row data IH]; [done|].
  rewrite filter_cons. case_decide as Hlen.
  - by rewrite !omap_step, IH.
  - rewrite IH, omap_step, row_record_short by lia. done.
Qed.

Lemma omap_app_drop {A B} (f : A -> option B) (l1 l2 : list A) (x : A) :
  f x = None -> omap f (l1 ++ x :: l2) = omap f (l1 ++ l2).
Proof.
  intros Hx. induction l1 as [|y l1 IH].
  - simpl app. by rewrite omap_step, Hx.
  - simpl app. by rewrite !omap_step, IH.
Qed.

Lemma omap_length_filter {A B} (f : A -> option B) (l : list A) :
  length (omap f l) = length (filter (fun x => is_Some (f x)) l).
Proof.
  induction l as [|x l IH]; [done|].
  rewrite filter_cons, omap_step. destruct (f x) as [y|] eqn:Hfx.
  - rewrite decide_True by eauto. simpl. by rewrite IH.
  - rewrite decide_False by apply is_Some_None. done.
Qed.

(** ** Reading the results page *)

Lemma read_results_rows (w : World) (hdr : Row) (data : list Row) :
  concat (doc_tables (w_doc w)) = hdr :: data ->
  read_results w
  = (emit (ESleep 5) (put "Waiting for results..." w), Ok (harvest (hdr :: data))).
Proof.
  intros Hrows. unfold read_results, bind, print, sleep, find_elements_GridView,
    select_GridView_tr, ret. simpl.
  destruct (doc_tables (w_doc w)) as [|t ts] eqn:Htab; [done|].
  simpl w_doc. by rewrite Htab, Hrows.
Qed.

Lemma read_results_absent (w : World) :
  doc_tables (w_doc w) = [] ->
  read_results w
  = (put "No results found." (emit (ESleep 5) (put "Waiting for results..." w)),
     Ok []).
Proof.
  intros Htab. unfold read_results, bind, print, sleep, find_elements_GridView, ret.
  simpl. by rewrite Htab.
Qed.

(** ** The download loop *)

Section Download.

Variable site : Site.
Variable output_dir : string.

Lemma download_step_total (result : ResultRecord) (w : World) :
  snd (download_step site output_dir result w) = Ok tt.
Proof.
  unfold download_step, try_except.
  destruct (download_one site output_dir result w) as [w1 [[]|e]]; reflexivity.
Qed.

Lemma download_step_ok (result : ResultRecord) (w : World) :
  download_step site output_dir result w
  = (fst (download_step site output_dir result w), Ok tt).
Proof.
  rewrite <- (download_step_total result w).
  by destruct (download_step site output_dir result w).
Qed.

Lemma for_each_cons (result : ResultRecord) (results : list ResultRecord) (w : World) :
  for_each (result :: results) (download_step site output_dir) w
  = for_each results (download_step site output_dir)
      (fst (download_step site output_dir result w)).
Proof.
  simpl. unfold bind at 1. by rewrite download_step_ok.
Qed.

Lemma for_each_download (results : list ResultRecord) (w : World) :
  for_each results (download_step site output_dir) w
  = (fold_left (fun w r => fst (download_step site output_dir r w)) results w, Ok tt).
Proof.
  revert w. induction results as [|r rs IH]; intros w; [done|].
  by rewrite for_each_cons, IH.
Qed.

Lemma download_step_caught (result : ResultRecord) (w w1 : World) (e : exn) :
  download_one site output_dir result w = (w1, Raise e) ->
  download_step site output_dir result w
  = (put ("Error downloading SEI for " +:+ name result +:+ ": " +:+ exn_str e) w1,
     Ok tt).
Proof.
  intros Hone. unfold download_step, try_except. by rewrite Hone.
Qed.

Lemma download_step_no_prefix (result : ResultRecord) (w : World) :
  Py.startswith (link result) "javascript:" = false ->
  download_step site output_dir result w = (w, Ok tt).
Proof.
  intros Hpre. unfold download_step, try_except, download_one, when.
  by rewrite Hpre.
Qed.

Lemma download_step_script_raises
    (result : ResultRecord) (w : World) (wins : list Window) (e : exn) :
  Py.startswith (link result) "javascript:" = true ->
  site_script site (script_of result) (w_windows w) = (wins, Some e) ->
  download_step site output_dir result w
  = (put ("Error downloading SEI for " +:+ name result +:+ ": " +:+ exn_str e)
         (emit (EScript (script_of result)) (with_windows wins w)),
     Ok tt).
Proof.
  intros Hpre Hscript. apply download_step_caught.
  unfold download_one, when. rewrite Hpre.
  unfold bind at 1. unfold execute_script.
  fold (script_of result). by rewrite Hscript.
Qed.

Lemma download_step_no_window
    (result : ResultRecord) (w : World) (wins : list Window) :
  Py.startswith (link result) "javascript:" = true ->
  site_script site (script_of result) (w_windows w) = (wins, None) ->
  length wins <= 1 ->
  download_step site output_dir result w = (after_script result wins w, Ok tt).
Proof.
  intros Hpre Hscript Hlen.
  unfold download_step, try_except, download_one, when. rewrite Hpre.
  unfold bind at 1. unfold execute_script.
  fold (script_of result). rewrite Hscript.
  unfold bind, sleep, window_handles, handles, after_script. simpl.
  destruct wins as [|x [|y wins]]; simpl in *; try done; lia.
Qed.

Lemma download_step_fetch
    (result : ResultRecord) (w : World) (W0 W1 : Window) (rest : list Window)
    (resp : Response) :
  Py.startswith (link result) "javascript:" = true ->
  site_script site (script_of result) (w_windows w) = (W0 :: W1 :: rest, None) ->
  win_handle W0 <> win_handle W1 ->
  site_http site (win_url W1) = Ok resp ->
  (status_code resp = 200 ->
   site_open_wb site (Py.path_join output_dir (derived_filename result)) = None) ->
  download_step site output_dir result w
  = (after_fetch output_dir result W0 W1 rest resp w, Ok tt).
Proof.
  intros Hpre Hscript Hne Hhttp Hopen.
  assert (H01 : String.eqb (win_handle W0) (win_handle W1) = false)
    by by apply String.eqb_neq.
  assert (H10 : String.eqb (win_handle W1) (win_handle W0) = false)
    by (apply String.eqb_neq; congruence).
  unfold download_step, try_except, download_one, when. rewrite Hpre.
  unfold bind at 1. unfold execute_script.
  fold (script_of result). rewrite Hscript.
  unfold bind, sleep, window_handles, handles, switch_to_window, has_handle,
    handles, current_url, requests_get, driver_close, has_handle, handles.
  repeat first [ rewrite H10 | rewrite H01 | rewrite String.eqb_refl
               | rewrite Hhttp | progress simpl ].
  unfold after_fetch.
  destruct (status_code resp =? 200)%nat eqn:Hst.
  - apply Nat.eqb_eq in Hst. unfold write_file, print. rewrite (Hopen Hst).
    repeat first [ rewrite H10 | rewrite H01 | rewrite String.eqb_refl
                 | progress simpl ].
    reflexivity.
  - unfold ret.
    repeat first [ rewrite H10 | rewrite H01 | rewrite String.eqb_refl
                 | progress simpl ].
    reflexivity.
Qed.

End Download.

(** ** The search form *)

Lemma first_match_lookup (by_ : By) (es : list Element) (i : nat) :
  first_match by_ es = Some i ->
  exists e, es !! i = Some e /\ matches by_ e = true.
Proof.
  revert i. induction es as [|e es IH]; intros i; simpl; [done|].
  destruct (matches by_ e) eqn:Hm.
  - intros [= <-]. eauto.
  - destruct (first_match by_ es) as [j|]; simpl; [|done].
    intros [= <-]. destruct (IH j eq_refl) as (e' & He' & Hm'). eauto.
Qed.

Lemma first_match_id (id : string) (es : list Element) (i : nat) (e : Element) :
  first_match (By_ID id) es = Some i -> es !! i = Some e -> el_id e = id.
Proof.
  intros Hfm Hlk. destruct (first_match_lookup _ _ _ Hfm) as (e' & He' & Hm).
  rewrite Hlk in He'. injection He' as <-. by apply String.eqb_eq.
Qed.

Ltac inner_case H :=
  match type of H with
  | context [match ?x with _ => _ end] =>
      lazymatch x with
      | context [match _ with _ => _ end] => fail
      | _ => destruct x eqn:?
      end
  end.

Ltac run_in H :=
  repeat first
    [ progress (simpl in H)
    | discriminate H
    | inner_case H ].

Lemma submit_search_form_ok
    (site : Site) (first_name last_name : option string) (w w1 : World) :
  submit_search_form site first_name last_name w = (w1, Ok tt) ->
  w_trace w1
  = EClick search_button_id
      :: typed last_name last_name_id ++ typed first_name first_name_id
      ++ EWait 20 :: EGet search_url :: w_trace w.
Proof.
  intros H.
  unfold submit_search_form, bind, try_except, if_given, driver_get, print,
    wait_presence, save_screenshot, raise, find_element, element_truthy, send_keys,
    click, ret in H.
  destruct first_name as [[|c1 s1]|], last_name as [[|c2 s2]|];
    run_in H; injection H as <-; simpl;
    repeat match goal with
      | Hf : first_match (By_ID ?id) ?es = Some ?i, Hl : ?es !! ?i = Some ?e |- _ =>
          rewrite (first_match_id id es i e Hf Hl); clear Hf
      end; reflexivity.
Qed.

(** ** The claims about the harvest *)

(** C1.  When the rows of the results table are one header row followed
    by N data rows, reading the results does not raise and returns at
    most N records: the header row never contributes, whatever it holds,
    and the rows with fewer than two cells can be struck from the table
    without changing the records returned.  [search_sei] returns these
    records whenever the form was submitted. *)
Theorem C1_at_most_one_record_per_data_row
    (w : World) (hdr : Row) (data : list Row) :
  concat (doc_tables (w_doc w)) = hdr :: data ->
  exists (w' : World) (rs : list ResultRecord),
    read_results w = (w', Ok rs)
    /\ length rs <= length data
    /\ (forall hdr' : Row, harvest (hdr' :: data) = rs)
    /\ harvest (hdr :: filter (fun r : Row => 2 <= length r) data) = rs
    /\ (forall site first_name last_name entity_type position w0,
          submit_search_form site first_name last_name w0 = (w, Ok tt) ->
          search_sei site first_name last_name entity_type position w0 = (w', Ok rs)).
Proof.
  intros Hrows. eexists _, _. split; [by apply read_results_rows|].
  rewrite harvest_cons. repeat split.
  - apply omap_length_le.
  - intros hdr'. apply harvest_cons.
  - by rewrite harvest_cons, omap_filter_wide.
  - intros site fn ln et pos w0 Hform. unfold search_sei, bind.
    rewrite Hform, (read_results_rows w hdr data Hrows). by rewrite harvest_cons.
Qed.

Lemma C1_witness :
  exists (w' : World) (rs : list ResultRecord),
    read_results Sample.listed = (w', Ok rs)
    /\ length rs <= 3
    /\ (forall hdr' : Row,
          harvest [hdr'; Sample.row_smith; Sample.row_short; Sample.row_jones] = rs)
    /\ harvest (Sample.header
                  :: filter (fun r : Row => 2 <= length r)
                       [Sample.row_smith; Sample.row_short; Sample.row_jones]) = rs
    /\ search_sei Sample.site (Some "John") (Some "Smith") None None Sample.started
       = (w', Ok rs).
Proof.
  assert (Hrows : concat (doc_tables (w_doc Sample.listed))
                  = Sample.header
                      :: [Sample.row_smith; Sample.row_short; Sample.row_jones])
    by (vm_compute; reflexivity).
  destruct (C1_at_most_one_record_per_data_row Sample.listed Sample.header
              [Sample.row_smith; Sample.row_short; Sample.row_jones] Hrows)
    as (w' & rs & Hread & Hlen & Hhdr & Hwide & Hsearch).
  exists w', rs.
  split; [exact Hread|]. split; [exact Hlen|]. split; [exact Hhdr|].
  split; [exact Hwide|].
  apply Hsearch. vm_compute. reflexivity.
Defined.

(** The harvest of the sample listing: two records for three data rows. *)
Example harvest_sample :
  harvest [Sample.header; Sample.row_smith; Sample.row_short; Sample.row_jones]
  = [Sample.smith; Sample.jones].
Proof. vm_compute. reflexivity. Qed.

(** C3, as stated, fails: a data row with three cells whose first cell
    holds no anchor gives no record at all. *)
Lemma C3_counterexample :
  2 <= length Sample.row_no_anchor
  /\ (exists c0 rest, Sample.row_no_anchor = c0 :: rest /\ c_anchor c0 = None)
  /\ harvest [Sample.header; Sample.row_no_anchor] = [].
Proof.
  split; [simpl; lia|]. split; [eexists _, _; split; reflexivity|].
  vm_compute. reflexivity.
Qed.

(** C3, amended.  The harvester produces one record per data row that has
    at least two cells and whose first cell holds an anchor with an
    [href], in the order of the table; a row whose first cell has no
    anchor yields no record: it is absent from the harvested list, and so
    from the download phase. *)
Theorem C3_one_record_per_linked_row (hdr : Row) (data : list Row) :
  harvest (hdr :: data) = omap row_record data
  /\ length (harvest (hdr :: data))
     = length (filter (fun r : Row => is_Some (row_href r)) data)
  /\ (forall r : Row, is_Some (row_href r) ->
        2 <= length r /\ exists c0 a rest, r = c0 :: rest /\ c_anchor c0 = Some a)
  /\ (forall (pre post : list Row) (c0 : Cell) (rest : list Cell),
        data = pre ++ (c0 :: rest) :: post -> c_anchor c0 = None ->
        harvest (hdr :: data) = harvest (hdr :: pre ++ post)).
Proof.
  split; [apply harvest_cons|]. split; [|split].
  - rewrite harvest_cons, omap_length_filter.
    f_equal. apply list_filter_iff. intros r. unfold row_record.
    destruct (row_href r); split; intros [x Hx]; by eauto.
  - intros [|c0 [|c1 rest]]; simpl; intros [h Hh]; try done.
    split; [simpl; lia|]. destruct (c_anchor c0) as [a|] eqn:Ha; [|done].
    eauto.
  - intros pre post c0 rest -> Hnone. rewrite !harvest_cons.
    apply omap_app_drop. unfold row_record, row_href.
    destruct rest; [done|]. by rewrite Hnone.
Qed.

(** C9.  A data row whose first cell holds an anchor without [href] gives
    no record: the records harvested are those of the table without that
    row, reading the results does not raise, and the download loop, which
    never raises, runs as it does for the table without the row. *)
Theorem C9_anchor_without_href
    (hdr : Row) (pre post : list Row) (c0 : Cell) (rest : list Cell) (a : Anchor) :
  c_anchor c0 = Some a ->
  a_attrs a !! "href" = None ->
  let rows := hdr :: pre ++ (c0 :: rest) :: post in
  harvest rows = harvest (hdr :: pre ++ post)
  /\ (forall w : World,
        concat (doc_tables (w_doc w)) = rows ->
        snd (read_results w) = Ok (harvest (hdr :: pre ++ post)))
  /\ (forall site output_dir (w : World),
        for_each (harvest rows) (download_step site output_dir) w
        = for_each (harvest (hdr :: pre ++ post)) (download_step site output_dir) w
        /\ snd (for_each (harvest rows) (download_step site output_dir) w) = Ok tt).
Proof.
  intros Ha Hhref rows.
  assert (Hsame : harvest rows = harvest (hdr :: pre ++ post)).
  { unfold rows. rewrite !harvest_cons. apply omap_app_drop.
    unfold row_record, row_href. destruct rest; [done|]. by rewrite Ha, Hhref. }
  split; [done|]. split.
  - intros w Hrows. rewrite (read_results_rows w _ _ Hrows). simpl.
    by rewrite <- Hsame.
  - intros site output_dir w. rewrite Hsame. split; [done|].
    by rewrite for_each_download.
Qed.

Lemma C9_witness :
  let rows := Sample.header :: [Sample.row_smith]
                ++ Sample.row_no_href :: [Sample.row_jones] in
  harvest rows = harvest (Sample.header :: [Sample.row_smith] ++ [Sample.row_jones])
  /\ (forall w : World,
        concat (doc_tables (w_doc w)) = rows ->
        snd (read_results w)
        = Ok (harvest (Sample.header :: [Sample.row_smith] ++ [Sample.row_jones])))
  /\ (forall site output_dir (w : World),
        for_each (harvest rows) (download_step site output_dir) w
        = for_each (harvest (Sample.header :: [Sample.row_smith] ++ [Sample.row_jones]))
            (download_step site output_dir) w
        /\ snd (for_each (harvest rows) (download_step site output_dir) w) = Ok tt).
Proof.
  apply (C9_anchor_without_href Sample.header [Sample.row_smith] [Sample.row_jones]
           (Sample.cell_link "View SEI" {[ "name" := "top" ]})
           [Sample.cell "Jane Doe"; Sample.cell "Mayor"]
           {| a_attrs := {[ "name" := "top" ]} |});
    reflexivity.
Defined.

(** ** The claims about the search *)

Lemma read_results_spec (w : World) :
  exists w' : World,
    read_results w = (w', Ok (harvest (concat (doc_tables (w_doc w)))))
    /\ w_trace w' = ESleep 5 :: w_trace w
    /\ w_files w' = w_files w
    /\ w_dirs w' = w_dirs w
    /\ (doc_tables (w_doc w) = [] -> head (w_stdout w') = Some "No results found.").
Proof.
  destruct (doc_tables (w_doc w)) as [|t ts] eqn:Htab.
  - rewrite (read_results_absent w Htab). eexists. repeat split; reflexivity.
  - exists (emit (ESleep 5) (put "Waiting for results..." w)).
    repeat split; try done.
    unfold read_results, bind, print, sleep, find_elements_GridView,
      select_GridView_tr, ret. simpl. rewrite Htab. simpl. by rewrite Htab.
Qed.

Lemma harvest_no_data (rows : list Row) : length rows <= 1 -> harvest rows = [].
Proof. destruct rows as [|hdr [|r rows]]; simpl; intros; try done; lia. Qed.

(** C4.  When the results table is absent from the page reached by the
    search, or holds no row beyond a header, reading the results returns
    the empty list without raising; so does [search_sei] once the form
    was submitted, and [main] then prints that nothing was found and
    quits: between the wait for the results and the shutdown of the
    browser no script runs, nothing is fetched and no file or directory
    is written. *)
Theorem C4_no_table_no_download (w : World) :
  doc_tables (w_doc w) = [] \/ length (concat (doc_tables (w_doc w))) <= 1 ->
  (exists w' : World,
      read_results w = (w', Ok []) /\ w_trace w' = ESleep 5 :: w_trace w)
  /\ (forall site first_name last_name entity_type position (w0 : World),
        submit_search_form site first_name last_name w0 = (w, Ok tt) ->
        exists w' : World,
          search_sei site first_name last_name entity_type position w0 = (w', Ok []))
  /\ (forall site (win : Window) (w0 : World),
        site_launch site = Ok win ->
        submit_search_form site (Some "John") (Some "Smith")
          (put "Searching for SEI filings for John Smith..."
               (with_focus (win_handle win) (with_windows [win] w0)))
        = (w, Ok tt) ->
        exists w' : World,
          main site w0 = (w', Ok tt)
          /\ head (w_stdout w') = Some "No results found."
          /\ w_trace w' = EQuit :: ESleep 5 :: w_trace w
          /\ w_files w' = w_files w
          /\ w_dirs w' = w_dirs w).
Proof.
  intros Hempty.
  assert (Hnone : harvest (concat (doc_tables (w_doc w))) = []).
  { destruct Hempty as [-> | Hle]; [done | by apply harvest_no_data]. }
  destruct (read_results_spec w) as (w' & Hread & Htrace & Hfiles & Hdirs & _).
  rewrite Hnone in Hread. split; [|split].
  - exists w'. by split.
  - intros site fn ln et pos w0 Hform. exists w'.
    unfold search_sei, bind. by rewrite Hform, Hread.
  - intros site win w0 Hlaunch Hform.
    exists (emit EQuit (with_windows [] (put "No results found." w'))).
    split; [|simpl; by rewrite Htrace, Hfiles, Hdirs].
    unfold main, setup_driver, webdriver_Chrome, try_finally, driver_quit.
    unfold bind at 1. rewrite Hlaunch.
    unfold bind at 1. unfold print at 1.
    change ("Searching for SEI filings for " +:+ "John" +:+ " " +:+ "Smith" +:+ "...")
      with "Searching for SEI filings for John Smith...".
    unfold bind at 1. unfold search_sei, bind at 1. rewrite Hform, Hread.
    reflexivity.
Qed.

Lemma C4_witness :
  (exists w' : World,
      read_results Sample.unlisted = (w', Ok [])
      /\ w_trace w' = ESleep 5 :: w_trace Sample.unlisted)
  /\ (exists w' : World,
        search_sei Sample.site_no_table (Some "John") (Some "Smith") None None
          Sample.started = (w', Ok []))
  /\ (exists w' : World,
        main Sample.site_no_table Sample.world = (w', Ok tt)
        /\ head (w_stdout w') = Some "No results found."
        /\ w_trace w' = EQuit :: ESleep 5 :: w_trace Sample.unlisted
        /\ w_files w' = w_files Sample.unlisted
        /\ w_dirs w' = w_dirs Sample.unlisted).
Proof.
  assert (Habsent : doc_tables (w_doc Sample.unlisted) = [])
    by (vm_compute; reflexivity).
  destruct (C4_no_table_no_download Sample.unlisted (or_introl Habsent))
    as (Hread & Hsearch & Hmain).
  split; [exact Hread|]. split.
  - apply Hsearch. vm_compute. reflexivity.
  - apply (Hmain Sample.site_no_table {| win_handle := "W0"; win_url := "data:," |}
             Sample.world eq_refl).
    vm_compute. reflexivity.
Defined.

(** The whole run against a site that renders no table: the search is
    submitted and nothing else happens before the browser quits. *)
Example main_no_table :
  snd (main Sample.site_no_table Sample.world) = Ok tt
  /\ w_trace (fst (main Sample.site_no_table Sample.world))
     = [EQuit; ESleep 5; EClick search_button_id;
        ESendKeys last_name_id "Smith"; ESendKeys first_name_id "John";
        EWait 20; EGet search_url]
  /\ w_stdout (fst (main Sample.site_no_table Sample.world))
     = ["No results found."; "No results found."; "Waiting for results...";
        "Clicked search button"; "Entered last name: Smith";
        "Entered first name: John"; "Filling out search form...";
        "Page loaded successfully"; "Waiting for page to load...";
        "Searching for SEI filings for John Smith..."].
Proof. vm_compute. repeat split. Qed.

(** A missing primary id is fatal whatever else the form holds: the
    lookup by id raises, so the test that guards the pattern-based
    lookup is never reached. *)
Lemma primary_id_absent_is_fatal
    (site : Site) (first_name last_name : option string) (w : World) (d : Document) :
  Py.truthy first_name = true ->
  site_get site search_url = Ok d ->
  first_match (CSS_input_type "text") (doc_inputs d) <> None ->
  first_match (By_ID first_name_id) (doc_inputs d) = None ->
  exists w' : World,
    submit_search_form site first_name last_name w
    = (w', Raise (Exn NoSuchElementException
                      "Message: no such element: Unable to locate element"))
    /\ head (w_trace w') = Some (EScreenshot "form_error_screenshot.png").
Proof.
  intros Hfn Hget Hwait Hprimary.
  unfold submit_search_form, bind, try_except, if_given, driver_get, print,
    wait_presence, save_screenshot, raise, find_element.
  rewrite Hget. simpl.
  destruct (first_match (CSS_input_type "text") (doc_inputs d)); [|done].
  destruct first_name as [s|]; [|done]. rewrite Hfn. simpl.
  rewrite Hprimary. simpl. eexists. split; reflexivity.
Qed.

(** C6, on a form whose first-name field lacks the primary id while the
    pattern [input[id*='FirstName']] matches it: [search_sei] raises
    [NoSuchElementException] after saving the form-error screenshot, and
    nothing is typed or clicked. *)
Theorem C6_fallback_is_never_tried :
  first_match (By_ID first_name_id) (doc_inputs Sample.form_renamed) = None
  /\ first_match (CSS_input_id_contains "FirstName") (doc_inputs Sample.form_renamed)
     = Some 0
  /\ snd (search_sei Sample.site_renamed (Some "John") (Some "Smith") None None
            Sample.world)
     = Raise (Exn NoSuchElementException
                  "Message: no such element: Unable to locate element")
  /\ w_trace (fst (search_sei Sample.site_renamed (Some "John") (Some "Smith")
                     None None Sample.world))
     = [EScreenshot "form_error_screenshot.png"; EWait 20; EGet search_url].
Proof. vm_compute. repeat split. Qed.

(** C7, as stated, fails: with all four criteria given and the search
    submitted, the only keystrokes are those of the two names. *)
Lemma C7_counterexample :
  let run := search_sei Sample.site (Some "John") (Some "Smith")
               (Some "Judge") (Some "Governor") Sample.world in
  snd run = Ok [Sample.smith; Sample.jones]
  /\ w_trace (fst run)
     = [ESleep 5; EClick search_button_id;
        ESendKeys last_name_id "Smith"; ESendKeys first_name_id "John";
        EWait 20; EGet search_url]
  /\ ~ (exists id, In (ESendKeys id "Judge") (w_trace (fst run)))
  /\ ~ (exists id, In (ESendKeys id "Governor") (w_trace (fst run))).
Proof.
  assert (Htrace :
    w_trace (fst (search_sei Sample.site (Some "John") (Some "Smith")
                    (Some "Judge") (Some "Governor") Sample.world))
    = [ESleep 5; EClick search_button_id;
       ESendKeys last_name_id "Smith"; ESendKeys first_name_id "John";
       EWait 20; EGet search_url]) by (vm_compute; reflexivity).
  cbv zeta. rewrite Htrace. split; [vm_compute; reflexivity|]. split; [done|].
  split; intros [id Hin]; simpl in Hin; intuition congruence.
Qed.

(** C7, amended.  [search_sei] enters the first name and the last name,
    each when it is given and not empty, and does so before it clicks the
    search button; the entity type and the position are accepted and
    never entered: the calls of a search that was submitted are the load,
    the wait, the keystrokes of the two names, the click and the pause,
    and the search does not depend on the two other criteria. *)
Theorem C7_names_typed_before_submit
    (site : Site) (first_name last_name entity_type position : option string)
    (w w' : World) (rs : list ResultRecord) :
  search_sei site first_name last_name entity_type position w = (w', Ok rs) ->
  w_trace w'
  = ESleep 5 :: EClick search_button_id
      :: typed last_name last_name_id ++ typed first_name first_name_id
      ++ EWait 20 :: EGet search_url :: w_trace w
  /\ search_sei site first_name last_name entity_type position
     = search_sei site first_name last_name None None.
Proof.
  intros Hrun. split; [|reflexivity].
  unfold search_sei, bind in Hrun.
  destruct (submit_search_form site first_name last_name w) as [w1 [[]|e]] eqn:Hform;
    [|discriminate].
  destruct (read_results_spec w1) as (w2 & Hread & Htrace & _).
  rewrite Hread in Hrun. injection Hrun as <- _.
  by rewrite Htrace, (submit_search_form_ok _ _ _ _ _ Hform).
Qed.

Lemma C7_witness :
  w_trace (fst (search_sei Sample.site (Some "John") (Some "Smith")
                  (Some "Judge") None Sample.world))
  = ESleep 5 :: EClick search_button_id
      :: typed (Some "Smith") last_name_id ++ typed (Some "John") first_name_id
      ++ EWait 20 :: EGet search_url :: w_trace Sample.world
  /\ search_sei Sample.site (Some "John") (Some "Smith") (Some "Judge") None
     = search_sei Sample.site (Some "John") (Some "Smith") None None.
Proof.
  apply (C7_names_typed_before_submit Sample.site (Some "John") (Some "Smith")
           (Some "Judge") None Sample.world _ [Sample.smith; Sample.jones]).
  vm_compute. reflexivity.
Defined.

(** ** The claims about the download loop *)

Lemma closed_handle_gone (h : string) (ws : list Window) :
  ~ In h (map win_handle
            (List.filter (fun x => negb (String.eqb (win_handle x) h)) ws)).
Proof.
  intros Hin. apply in_map_iff in Hin as (x & Hx & Hin).
  apply filter_In in Hin as [_ Hneq]. subst h.
  by rewrite String.eqb_refl in Hneq.
Qed.

Lemma download_sei_pdfs_raise
    (site : Site) (results : list ResultRecord) (output_dir : string)
    (w : World) (e : exn) :
  snd (download_sei_pdfs site results output_dir w) = Raise e ->
  site_makedirs site output_dir = Some e.
Proof.
  unfold download_sei_pdfs, bind, os_path_exists, when, os_makedirs, ret.
  destruct (negb _).
  - destruct (site_makedirs site output_dir) as [e'|]; simpl.
    + by intros [= ->].
    + by rewrite for_each_download.
  - by rewrite for_each_download.
Qed.

(** C2, as stated, fails: a response with status 404 is not an exception;
    the request is made, nothing is caught and nothing is printed. *)
Lemma C2_counterexample :
  let w' := fst (download_step Sample.site_404 "sei_pdfs" Sample.smith Sample.world) in
  site_http Sample.site_404 "https://www.ethics.webapps.ms.gov/viewSEI('123')"
  = Ok Sample.not_found
  /\ In (EHttpGet "https://www.ethics.webapps.ms.gov/viewSEI('123')") (w_trace w')
  /\ w_stdout w' = []
  /\ w_files w' = w_files Sample.world.
Proof.
  cbv zeta. split; [reflexivity|].
  assert (Hrun : download_step Sample.site_404 "sei_pdfs" Sample.smith Sample.world
                 = (after_fetch "sei_pdfs" Sample.smith
                      {| win_handle := "W0"; win_url := "data:," |}
                      {| win_handle := "W1";
                         win_url := "https://www.ethics.webapps.ms.gov/viewSEI('123')" |}
                      [] Sample.not_found Sample.world, Ok tt)).
  { apply download_step_fetch; try reflexivity; done. }
  rewrite Hrun. simpl. split; [|done]. right. right. by left.
Qed.

(** C2, amended.  An exception raised while a record is processed is
    caught and reported on standard output, a response whose status is
    not 200 is passed over without a line printed and without a file
    written, and in both cases the loop goes on with the next record: a
    turn of the loop never raises, and [download_sei_pdfs] raises only
    when the output directory cannot be created, before any record. *)
Theorem C2_failures_do_not_stop_the_batch
    (site : Site) (output_dir : string)
    (result : ResultRecord) (results : list ResultRecord) (w : World) :
  snd (download_step site output_dir result w) = Ok tt
  /\ for_each (result :: results) (download_step site output_dir) w
     = for_each results (download_step site output_dir)
         (fst (download_step site output_dir result w))
  /\ snd (for_each (result :: results) (download_step site output_dir) w) = Ok tt
  /\ (forall (w1 : World) (e : exn),
        download_one site output_dir result w = (w1, Raise e) ->
        download_step site output_dir result w
        = (put ("Error downloading SEI for " +:+ name result +:+ ": " +:+ exn_str e) w1,
           Ok tt))
  /\ (forall (W0 W1 : Window) (rest : list Window) (resp : Response),
        Py.startswith (link result) "javascript:" = true ->
        site_script site (script_of result) (w_windows w) = (W0 :: W1 :: rest, None) ->
        win_handle W0 <> win_handle W1 ->
        site_http site (win_url W1) = Ok resp ->
        status_code resp <> 200 ->
        exists w' : World,
          download_step site output_dir result w = (w', Ok tt)
          /\ w_stdout w' = w_stdout w
          /\ w_files w' = w_files w)
  /\ (forall e : exn,
        snd (download_sei_pdfs site (result :: results) output_dir w) = Raise e ->
        site_makedirs site output_dir = Some e).
Proof.
  split; [apply download_step_total|]. split; [apply for_each_cons|].
  split; [by rewrite for_each_download|]. split; [apply download_step_caught|].
  split; [|apply download_sei_pdfs_raise].
  intros W0 W1 rest resp Hpre Hscript Hne Hhttp Hstatus.
  eexists. split.
  - apply (download_step_fetch site output_dir result w W0 W1 rest resp); try done.
  - unfold after_fetch. simpl.
    apply Nat.eqb_neq in Hstatus. by rewrite Hstatus.
Qed.

(** A record whose request fails, followed by a record without script:
    the failure is printed and the loop reaches its end. *)
Example download_after_failure :
  for_each [Sample.smith; Sample.plain_link]
    (download_step Sample.site_down "sei_pdfs") Sample.world
  = (put "Error downloading SEI for John Smith: Connection refused"
       (emit (EHttpGet "https://www.ethics.webapps.ms.gov/viewSEI('123')")
          (emit (ESwitch "W1")
             (with_focus "W1"
                (after_script Sample.smith
                   [ {| win_handle := "W0"; win_url := "data:," |};
                     {| win_handle := "W1";
                        win_url := "https://www.ethics.webapps.ms.gov/viewSEI('123')" |} ]
                   Sample.world)))),
     Ok tt).
Proof. vm_compute. reflexivity. Qed.

(** C5, on two records processed in turn.  The request of the first
    raises: its window stays open and keeps the focus.  The second record
    then finds that window under the second handle: it asks again for the
    URL of the first record, never for its own, and the loop ends with
    three windows open and the focus on the stale one. *)
Theorem C5_window_left_open_after_exception :
  let w1 := fst (download_step Sample.site_down "sei_pdfs" Sample.smith Sample.world) in
  let w2 := fst (download_step Sample.site_down "sei_pdfs" Sample.jones w1) in
  (handles Sample.world = ["W0"] /\ w_focus Sample.world = "W0")
  /\ (handles w1 = ["W0"; "W1"] /\ w_focus w1 = "W1")
  /\ w_stdout w1 = ["Error downloading SEI for John Smith: Connection refused"]
  /\ (handles w2 = ["W0"; "W1"; "W2"] /\ w_focus w2 = "W1")
  /\ w_trace w2
     = [EHttpGet "https://www.ethics.webapps.ms.gov/viewSEI('123')"; ESwitch "W1";
        ESleep 3; EScript "viewSEI('456')";
        EHttpGet "https://www.ethics.webapps.ms.gov/viewSEI('123')"; ESwitch "W1";
        ESleep 3; EScript "viewSEI('123')"].
Proof. vm_compute. repeat split. Qed.

(** The same defect when the file of the first record cannot be opened:
    the second record is saved, under its own name, with the document of
    the first. *)
Example stale_window_wrong_document :
  let w2 := fst (for_each [Sample2.first_filer; Sample2.second_filer]
                   (download_step Sample2.site_no_subdir "sei_pdfs") Sample.world) in
  site_http Sample2.site_no_subdir "https://www.ethics.webapps.ms.gov/viewSEI('456')"
  = Ok (Sample.pdf Byte.x02)
  /\ w_files w2 !! "sei_pdfs/Jane_Doe_Mayor.pdf" = Some [Byte.x01]
  /\ w_stdout w2
     = ["Downloaded: sei_pdfs/Jane_Doe_Mayor.pdf";
        "Error downloading SEI for A/B Trust: [Errno 2] No such file or directory"].
Proof. vm_compute. repeat split. Qed.

(** The path on which lines 152-154 are reached.  When a record opened a
    second window and neither the
    reading of its URL, nor the HTTP request, nor the writing of the file
    raises, the second window is closed and the focus is back on the
    first window once the record is processed, whether the status of the
    response is 200 or not. *)
Theorem C5_window_closed_without_exception
    (site : Site) (output_dir : string) (result : ResultRecord) (w : World)
    (W0 W1 : Window) (rest : list Window) (resp : Response) :
  Py.startswith (link result) "javascript:" = true ->
  site_script site (script_of result) (w_windows w) = (W0 :: W1 :: rest, None) ->
  win_handle W0 <> win_handle W1 ->
  site_http site (win_url W1) = Ok resp ->
  (status_code resp = 200 ->
   site_open_wb site (Py.path_join output_dir (derived_filename result)) = None) ->
  exists w' : World,
    download_step site output_dir result w = (w', Ok tt)
    /\ w_focus w' = win_handle W0
    /\ In (win_handle W0) (handles w')
    /\ ~ In (win_handle W1) (handles w')
    /\ In (EClose (win_handle W1)) (w_trace w').
Proof.
  intros Hpre Hscript Hne Hhttp Hopen. eexists. split.
  - by apply (download_step_fetch site output_dir result w W0 W1 rest resp).
  - unfold after_fetch, handles. simpl. split; [done|]. split; [by left|]. split.
    + intros [Heq|Hin]; [done|]. by apply closed_handle_gone in Hin.
    + right. by left.
Qed.

Lemma C5_witness :
  exists w' : World,
    download_step Sample.site "sei_pdfs" Sample.smith Sample.world = (w', Ok tt)
    /\ w_focus w' = "W0"
    /\ In "W0" (handles w')
    /\ ~ In "W1" (handles w')
    /\ In (EClose "W1") (w_trace w').
Proof.
  apply (C5_window_closed_without_exception Sample.site "sei_pdfs" Sample.smith
           Sample.world
           {| win_handle := "W0"; win_url := "data:," |}
           {| win_handle := "W1";
              win_url := "https://www.ethics.webapps.ms.gov/viewSEI('123')" |}
           [] (Sample.pdf Byte.x01)).
  - reflexivity.
  - reflexivity.
  - simpl. discriminate.
  - reflexivity.
  - reflexivity.
Defined.

Lemma replace_space (s : string) :
  Py.replace s " " "_" = spaces_to_underscores s.
Proof.
  unfold Py.replace. induction s as [|c s IH]; [done|].
  cbn [Py.replace_from spaces_to_underscores String.prefix String.length].
  destruct (ascii_dec " " c) as [<-|Hc].
  - assert (Hnil : String.prefix "" s = true) by by destruct s.
    rewrite Hnil. simpl. by rewrite IH.
  - rewrite IH. f_equal.
    destruct (Ascii.eqb c " ") eqn:Heq; [|done].
    apply Ascii.eqb_eq in Heq. congruence.
Qed.

Lemma spaces_to_underscores_length (s : string) :
  String.length (spaces_to_underscores s) = String.length s.
Proof. induction s as [|c s IH]; simpl; [done | by rewrite IH]. Qed.

Lemma spaces_to_underscores_get (s : string) (n : nat) (c : ascii) :
  String.get n (spaces_to_underscores s) = Some c -> c <> " "%char.
Proof.
  revert n. induction s as [|a s IH]; intros n; simpl; [done|].
  destruct n as [|n]; [|by apply IH].
  intros [= <-]. destruct (Ascii.eqb a " ") eqn:Heq; [done|].
  by apply Ascii.eqb_neq.
Qed.

(** C8.  The filename derived from a record is a function of its name and
    position only: each of the two with every space turned into an
    underscore and nothing else changed, joined by an underscore and
    followed by [.pdf]; it is [John_Smith_Governor.pdf] for John Smith,
    Governor.  When two records with the same derived filename are both
    downloaded, the second file replaces the first: the path holds the
    second body, both downloads are reported and no error is printed. *)
Theorem C8_filename_derivation
    (site : Site) (output_dir : string) (r1 r2 : ResultRecord) (w : World)
    (W0 W1 V0 V1 : Window) (rest rest' : list Window) (resp1 resp2 : Response) :
  let path := Py.path_join output_dir (derived_filename r1) in
  let w1 := fst (download_step site output_dir r1 w) in
  derived_filename r1 = derived_filename r2 ->
  site_open_wb site path = None ->
  Py.startswith (link r1) "javascript:" = true ->
  site_script site (script_of r1) (w_windows w) = (W0 :: W1 :: rest, None) ->
  win_handle W0 <> win_handle W1 ->
  site_http site (win_url W1) = Ok resp1 ->
  status_code resp1 = 200 ->
  Py.startswith (link r2) "javascript:" = true ->
  site_script site (script_of r2) (w_windows w1) = (V0 :: V1 :: rest', None) ->
  win_handle V0 <> win_handle V1 ->
  site_http site (win_url V1) = Ok resp2 ->
  status_code resp2 = 200 ->
  derived_filename {| name := "John Smith"; position := "Governor"; link := link r1 |}
  = "John_Smith_Governor.pdf"
  /\ (forall r : ResultRecord,
        derived_filename r
        = spaces_to_underscores (name r) +:+ "_"
          +:+ spaces_to_underscores (position r) +:+ ".pdf")
  /\ (forall (s : string) (n : nat) (c : ascii),
        String.length (spaces_to_underscores s) = String.length s
        /\ (String.get n (spaces_to_underscores s) = Some c -> c <> " "%char))
  /\ (forall r r' : ResultRecord,
        name r = name r' -> position r = position r' ->
        derived_filename r = derived_filename r')
  /\ w_files w1 !! path = Some (content resp1)
  /\ exists w2 : World,
       for_each [r1; r2] (download_step site output_dir) w = (w2, Ok tt)
       /\ w_files w2 !! path = Some (content resp2)
       /\ w_files w2 = <[path := content resp2]> (w_files w)
       /\ w_stdout w2
          = ("Downloaded: " +:+ path) :: ("Downloaded: " +:+ path) :: w_stdout w.
Proof.
  intros path w1 Hsame Hopen Hpre1 Hscript1 Hne1 Hhttp1 Hst1
    Hpre2 Hscript2 Hne2 Hhttp2 Hst2.
  assert (Hstep1 : download_step site output_dir r1 w
                   = (after_fetch output_dir r1 W0 W1 rest resp1 w, Ok tt))
    by by apply download_step_fetch.
  assert (Hw1 : w1 = after_fetch output_dir r1 W0 W1 rest resp1 w)
    by (unfold w1; by rewrite Hstep1).
  assert (Hstep2 : download_step site output_dir r2 w1
                   = (after_fetch output_dir r2 V0 V1 rest' resp2 w1, Ok tt)).
  { apply download_step_fetch; try done. intros _. by rewrite <- Hsame. }
  split; [reflexivity|]. split.
  { intros r. unfold derived_filename. by rewrite !replace_space. }
  split.
  { intros s n c. split;
      [apply spaces_to_underscores_length | apply spaces_to_underscores_get]. }
  split.
  { intros r r' Hn Hp. unfold derived_filename. by rewrite Hn, Hp. }
  split.
  { rewrite Hw1. unfold after_fetch. simpl. rewrite Hst1. simpl.
    apply lookup_insert_eq. }
  exists (after_fetch output_dir r2 V0 V1 rest' resp2 w1).
  split.
  { rewrite for_each_cons. fold w1. simpl. unfold bind. by rewrite Hstep2. }
  unfold after_fetch at 1 2 3. simpl. rewrite Hst2, <- Hsame. simpl. fold path.
  rewrite Hw1. unfold after_fetch. simpl. rewrite Hst1. simpl. fold path.
  split; [apply lookup_insert_eq|]. split; [apply insert_insert_eq | done].
Qed.

Lemma C8_witness :
  let path := "sei_pdfs/John_Smith_Governor.pdf" in
  let w1 := fst (download_step Sample.site "sei_pdfs" Sample.smith Sample.world) in
  derived_filename {| name := "John Smith"; position := "Governor";
                      link := link Sample.smith |}
  = "John_Smith_Governor.pdf"
  /\ (forall r : ResultRecord,
        derived_filename r
        = spaces_to_underscores (name r) +:+ "_"
          +:+ spaces_to_underscores (position r) +:+ ".pdf")
  /\ (forall (s : string) (n : nat) (c : ascii),
        String.length (spaces_to_underscores s) = String.length s
        /\ (String.get n (spaces_to_underscores s) = Some c -> c <> " "%char))
  /\ (forall r r' : ResultRecord,
        name r = name r' -> position r = position r' ->
        derived_filename r = derived_filename r')
  /\ w_files w1 !! path = Some [Byte.x01]
  /\ exists w2 : World,
       for_each [Sample.smith; Sample.jones] (download_step Sample.site "sei_pdfs")
         Sample.world = (w2, Ok tt)
       /\ w_files w2 !! path = Some [Byte.x02]
       /\ w_files w2 = <[path := [Byte.x02]]> (w_files Sample.world)
       /\ w_stdout w2
          = ("Downloaded: " +:+ path) :: ("Downloaded: " +:+ path)
              :: w_stdout Sample.world.
Proof.
  apply (C8_filename_derivation Sample.site "sei_pdfs" Sample.smith Sample.jones
           Sample.world
           {| win_handle := "W0"; win_url := "data:," |}
           {| win_handle := "W1";
              win_url := "https://www.ethics.webapps.ms.gov/viewSEI('123')" |}
           {| win_handle := "W0"; win_url := "data:," |}
           {| win_handle := "W1";
              win_url := "https://www.ethics.webapps.ms.gov/viewSEI('456')" |}
           [] [] (Sample.pdf Byte.x01) (Sample.pdf Byte.x02)).
  - reflexivity.
  - reflexivity.
  - reflexivity.
  - reflexivity.
  - simpl. discriminate.
  - reflexivity.
  - reflexivity.
  - reflexivity.
  - vm_compute. reflexivity.
  - simpl. discriminate.
  - reflexivity.
  - reflexivity.
Defined.

(** C10.  A record whose link does not start with [javascript:], or
    whose script runs without raising and leaves at most one window
    handle, is passed over: the turn of the loop does not raise, prints
    nothing, writes no file and makes no call beyond the script and the
    pause that follows it, so no HTTP request; the loop goes on with the
    next record. *)
Theorem C10_silent_skip
    (site : Site) (output_dir : string)
    (result : ResultRecord) (results : list ResultRecord) (w : World) :
  Py.startswith (link result) "javascript:" = false
  \/ (exists wins : list Window,
        site_script site (script_of result) (w_windows w) = (wins, None)
        /\ length wins <= 1) ->
  exists w' : World,
    download_step site output_dir result w = (w', Ok tt)
    /\ w_stdout w' = w_stdout w
    /\ w_files w' = w_files w
    /\ (w_trace w' = w_trace w
        \/ w_trace w' = ESleep 3 :: EScript (script_of result) :: w_trace w)
    /\ (forall url, In (EHttpGet url) (w_trace w') -> In (EHttpGet url) (w_trace w))
    /\ (forall path, In (EOpenWb path) (w_trace w') -> In (EOpenWb path) (w_trace w))
    /\ for_each (result :: results) (download_step site output_dir) w
       = for_each results (download_step site output_dir) w'.
Proof.
  intros Hskip.
  destruct (Py.startswith (link result) "javascript:") eqn:Hpre.
  - destruct Hskip as [|(wins & Hscript & Hlen)]; [done|].
    exists (after_script result wins w).
    assert (Hstep := download_step_no_window site output_dir result w wins
                       Hpre Hscript Hlen).
    split; [done|]. split; [done|]. split; [done|]. split; [by right|].
    split; [|split].
    + intros url [|[|]]; done.
    + intros path [|[|]]; done.
    + by rewrite for_each_cons, Hstep.
  - exists w.
    assert (Hstep := download_step_no_prefix site output_dir result w Hpre).
    split; [done|]. split; [done|]. split; [done|]. split; [by left|].
    split; [done|]. split; [done|].
    by rewrite for_each_cons, Hstep.
Qed.

Lemma C10_witness :
  exists w' : World,
    download_step Sample.site_no_window "sei_pdfs" Sample.smith Sample.world
    = (w', Ok tt)
    /\ w_stdout w' = w_stdout Sample.world
    /\ w_files w' = w_files Sample.world
    /\ (w_trace w' = w_trace Sample.world
        \/ w_trace w'
           = ESleep 3 :: EScript (script_of Sample.smith) :: w_trace Sample.world)
    /\ (forall url, In (EHttpGet url) (w_trace w')
                    -> In (EHttpGet url) (w_trace Sample.world))
    /\ (forall path, In (EOpenWb path) (w_trace w')
                     -> In (EOpenWb path) (w_trace Sample.world))
    /\ for_each (Sample.smith :: [Sample.plain_link])
         (download_step Sample.site_no_window "sei_pdfs") Sample.world
       = for_each [Sample.plain_link]
           (download_step Sample.site_no_window "sei_pdfs") w'.
Proof.
  apply (C10_silent_skip Sample.site_no_window "sei_pdfs" Sample.smith
           [Sample.plain_link] Sample.world).
  right. exists (w_windows Sample.world). split; [reflexivity | simpl; lia].
Defined.

(** A record whose link is not a script leaves the session as it was. *)
Example plain_link_skipped :
  download_step Sample.site "sei_pdfs" Sample.plain_link Sample.world
  = (Sample.world, Ok tt).
Proof. vm_compute. reflexivity. Qed.

(** * Further properties *)

(** ** Strings *)

Lemma lstrip_head_ok (s : string) : head_ok (Py.lstrip s).
Proof.
  induction s as [|c s IH]; simpl; [done|].
  destruct (Py.isspace c) eqn:Hc; [done|]. simpl. done.
Qed.

Lemma lstrip_fixed (s : string) : head_ok s -> Py.lstrip s = s.
Proof. destruct s as [|c s]; simpl; [done|]. by intros ->. Qed.

Lemma rstrip_head_ok (s : string) : head_ok s -> head_ok (Py.rstrip s).
Proof.
  destruct s as [|c s]; simpl; [done|]. intros Hc.
  destruct (Py.rstrip s); simpl; [by rewrite Hc|done].
Qed.

Lemma rstrip_last_ok (s : string) : last_ok (Py.rstrip s).
Proof.
  induction s as [|c s IH]; simpl; [done|].
  destruct (Py.rstrip s) as [|a t] eqn:Ht.
  - destruct (Py.isspace c) eqn:Hc; simpl; done.
  - simpl. simpl in IH. done.
Qed.

Lemma rstrip_fixed (s : string) : last_ok s -> Py.rstrip s = s.
Proof.
  induction s as [|c s IH]; simpl; [done|].
  destruct s as [|a t].
  - simpl. by intros ->.
  - intros Hlast. rewrite (IH Hlast). done.
Qed.

Lemma strip_trimmed (s : string) :
  head_ok (Py.strip s) /\ last_ok (Py.strip s).
Proof.
  unfold Py.strip. split.
  - apply rstrip_head_ok, lstrip_head_ok.
  - apply rstrip_last_ok.
Qed.

Lemma strip_fixed (s : string) : head_ok s -> last_ok s -> Py.strip s = s.
Proof.
  intros Hhead Hlast. unfold Py.strip. by rewrite lstrip_fixed, rstrip_fixed.
Qed.

(** ** The harvest, further *)

Lemma harvest_elem (rows : list Row) (r : ResultRecord) :
  In r (harvest rows) ->
  exists row : Row, In row (drop 1 rows) /\ row_record row = Some r.
Proof.
  unfold harvest. rewrite fold_harvest_row. simpl.
  rewrite <- !list_elem_of_In, list_elem_of_omap.
  intros (row & Hrow & Hrec). exists row. by rewrite <- list_elem_of_In.
Qed.

(** X1.  The name and the position of every harvested record are
    trimmed: neither starts nor ends with a whitespace character, so
    stripping them again changes nothing; the link is the [href] of the
    anchor in the first cell of a row that has at least two cells. *)
Theorem harvested_fields_are_trimmed (rows : list Row) (r : ResultRecord) :
  In r (harvest rows) ->
  (head_ok (name r) /\ last_ok (name r) /\ Py.strip (name r) = name r)
  /\ (head_ok (position r) /\ last_ok (position r)
      /\ Py.strip (position r) = position r)
  /\ exists row : Row,
       In row (drop 1 rows) /\ 2 <= length row /\ row_href row = Some (link r).
Proof.
  intros Hin. destruct (harvest_elem rows r Hin) as (row & Hrow & Hrec).
  unfold row_record in Hrec. destruct (row_href row) as [href|] eqn:Hhref; [|done].
  injection Hrec as <-. simpl.
  assert (Hname : head_ok (row_name row) /\ last_ok (row_name row)).
  { unfold row_name. destruct row as [|c0 [|c1 rest]]; try done. apply strip_trimmed. }
  assert (Hpos : head_ok (row_position row) /\ last_ok (row_position row)).
  { unfold row_position. destruct row as [|c0 [|c1 [|c2 rest]]]; try done.
    apply strip_trimmed. }
  destruct Hname as [Hn1 Hn2], Hpos as [Hp1 Hp2].
  split; [by rewrite strip_fixed|]. split; [by rewrite strip_fixed|].
  exists row. split; [done|]. split; [|done].
  destruct row as [|c0 [|c1 rest]]; simpl in *; try done. lia.
Qed.

Lemma harvested_fields_are_trimmed_witness :
  (head_ok (name Sample.smith) /\ last_ok (name Sample.smith)
   /\ Py.strip (name Sample.smith) = name Sample.smith)
  /\ (head_ok (position Sample.smith) /\ last_ok (position Sample.smith)
      /\ Py.strip (position Sample.smith) = position Sample.smith)
  /\ exists row : Row,
       In row (drop 1 [Sample.header; Sample.row_smith; Sample.row_short])
       /\ 2 <= length row /\ row_href row = Some (link Sample.smith).
Proof.
  apply (harvested_fields_are_trimmed
           [Sample.header; Sample.row_smith; Sample.row_short] Sample.smith).
  vm_compute. by left.
Defined.

(** X2.  The rows are read in the order of the table: the records of a
    listing whose data rows are those of one listing followed by those of
    another are the records of the first followed by the records of the
    second, whatever the header rows are. *)
Theorem harvest_app (hdr hdr1 hdr2 : Row) (data1 data2 : list Row) :
  harvest (hdr :: data1 ++ data2)
  = harvest (hdr1 :: data1) ++ harvest (hdr2 :: data2).
Proof.
  rewrite !harvest_cons. apply omap_app.
Qed.



(** The first row of the second table is harvested. *)
Example second_table_first_row :
  snd (read_results
         (Sample.showing [[Sample.header; Sample.row_smith]; Sample2.second_table]))
  = Ok [Sample.smith; Sample.jones].
Proof. vm_compute. reflexivity. Qed.

(** ** The search, further *)

(** X4.  When the page loads and no text input shows within the wait,
    [search_sei] saves [debug_screenshot.png] and raises the timeout of
    the wait again: nothing is typed or clicked, and the lines printed
    are the progress line, the error and the note on the screenshot. *)
Theorem page_load_timeout_is_fatal
    (site : Site) (first_name last_name entity_type position : option string)
    (w : World) (d : Document) :
  site_get site search_url = Ok d ->
  first_match (CSS_input_type "text") (doc_inputs d) = None ->
  exists w' : World,
    search_sei site first_name last_name entity_type position w
    = (w', Raise (Exn TimeoutException "Message: "))
    /\ w_trace w'
       = EScreenshot "debug_screenshot.png" :: EWait 20 :: EGet search_url :: w_trace w
    /\ w_stdout w'
       = "Saved debug screenshot" :: "Error waiting for page to load: Message: "
           :: "Waiting for page to load..." :: w_stdout w
    /\ w_doc w' = d.
Proof.
  intros Hget Hwait.
  unfold search_sei, submit_search_form, bind, try_except, driver_get, print,
    wait_presence, save_screenshot, raise.
  rewrite Hget. simpl. rewrite Hwait. simpl.
  eexists. repeat split; reflexivity.
Qed.

Lemma page_load_timeout_is_fatal_witness :
  exists w' : World,
    search_sei Sample2.site_blank (Some "John") (Some "Smith") None None Sample.world
    = (w', Raise (Exn TimeoutException "Message: "))
    /\ w_trace w'
       = EScreenshot "debug_screenshot.png" :: EWait 20 :: EGet search_url
           :: w_trace Sample.world
    /\ w_stdout w'
       = "Saved debug screenshot" :: "Error waiting for page to load: Message: "
           :: "Waiting for page to load..." :: w_stdout Sample.world
    /\ w_doc w' = Sample2.form_blank.
Proof.
  apply (page_load_timeout_is_fatal Sample2.site_blank (Some "John") (Some "Smith")
           None None Sample.world Sample2.form_blank); reflexivity.
Defined.



(** On the form whose button cannot be clicked, both names are typed
    before the failure. *)
Example locked_button_run :
  w_trace (fst (search_sei Sample2.site_locked (Some "John") (Some "Smith") None None
                  Sample.world))
  = [EScreenshot "form_error_screenshot.png";
     ESendKeys last_name_id "Smith"; ESendKeys first_name_id "John";
     EWait 20; EGet search_url].
Proof. vm_compute. reflexivity. Qed.

Lemma bind_ok {A B} (m : M A) (k : A -> M B) (w w1 : World) (a : A) :
  m w = (w1, Ok a) -> bind m k w = k a w1.
Proof. intros H. unfold bind. by rewrite H. Qed.

Lemma try_except_ok {A} (m : M A) (h : exn -> M A) (w w1 : World) (a : A) :
  m w = (w1, Ok a) -> try_except m h w = (w1, Ok a).
Proof. intros H. unfold try_except. by rewrite H. Qed.

Lemma first_match_typed (id : string) (j : nat) (s : string) (d : Document) :
  first_match (By_ID id) (doc_inputs (type_into j s d))
  = first_match (By_ID id) (doc_inputs d).
Proof.
  unfold type_into. simpl. generalize (doc_inputs d) as l. intros l. revert j.
  induction l as [|e l IH]; intros j; [by destruct j|].
  destruct j as [|j]; simpl; [done|].
  change (list_alter ?f j l) with (alter f j l). by rewrite IH.
Qed.

Lemma lookup_typed (i j : nat) (s : string) (d : Document) :
  el_interactable <$> (doc_inputs (type_into j s d) !! i)
  = el_interactable <$> (doc_inputs d !! i).
Proof.
  unfold type_into. simpl. generalize (doc_inputs d) as l. intros l. revert i j.
  induction l as [|e l IH]; intros i j; [by destruct j|].
  destruct j as [|j], i as [|i]; simpl; try done.
  apply (IH i j).
Qed.

Lemma ready_typed (id : string) (j : nat) (s : string) (d : Document) :
  ready id (type_into j s d) = ready id d.
Proof.
  unfold ready. rewrite first_match_typed.
  destruct (first_match (By_ID id) (doc_inputs d)) as [i|]; [|done].
  pose proof (lookup_typed i j s d) as H.
  destruct (doc_inputs (type_into j s d) !! i), (doc_inputs d !! i);
    simpl in H; congruence.
Qed.

Lemma ready_fill (id id' : string) (arg : option string) (d : Document) :
  ready id (fill arg id' d) = ready id d.
Proof.
  unfold fill. destruct arg as [s|]; [|done].
  destruct (Py.truthy (Some s)); [|done].
  destruct (first_match (By_ID id') (doc_inputs d)); [|done].
  apply ready_typed.
Qed.

Lemma first_match_fill (id id' : string) (arg : option string) (d : Document) :
  first_match (By_ID id) (doc_inputs (fill arg id' d))
  = first_match (By_ID id) (doc_inputs d).
Proof.
  unfold fill. destruct arg as [s|]; [|done].
  destruct (Py.truthy (Some s)); [|done].
  destruct (first_match (By_ID id') (doc_inputs d)); [|done].
  apply first_match_typed.
Qed.

Lemma ready_found (id : string) (d : Document) :
  ready id d = true ->
  exists (i : nat) (e : Element),
    first_match (By_ID id) (doc_inputs d) = Some i
    /\ doc_inputs d !! i = Some e
    /\ el_interactable e = true.
Proof.
  unfold ready. destruct (first_match (By_ID id) (doc_inputs d)) as [i|]; [|done].
  destruct (doc_inputs d !! i) as [e|] eqn:Hlk; [|done].
  intros Hint. by exists i, e.
Qed.

(** One field of the form: the lines 48-54 and 57-63, for any id,
    fallback locator and label. *)
Lemma field_block
    (arg : option string) (id : string) (fallback : By) (label : string) (w : World) :
  (Py.truthy arg = true -> ready id (w_doc w) = true) ->
  exists w1 : World,
    if_given arg (fun s =>
      field <- find_element (By_ID id) ;;
      field <- (if negb (element_truthy field)
                then find_element fallback else ret field) ;;
      send_keys field s ;;
      print (label +:+ s)) w = (w1, Ok tt)
    /\ w_doc w1 = fill arg id (w_doc w).
Proof.
  intros Hready. unfold if_given, fill. destruct arg as [s|]; [|by eexists].
  destruct (Py.truthy (Some s)); [|by eexists].
  destruct (ready_found id (w_doc w) (Hready eq_refl)) as (i & e & Hfm & Hlk & Hint).
  unfold bind, find_element, element_truthy, send_keys, print, ret, WebElement.
  rewrite Hfm. cbv beta iota zeta delta [negb]. rewrite Hlk, Hint.
  eexists. split; reflexivity.
Qed.

(** X6.  When the page loads with a text input, the field of each name
    given is present under its primary id and can be typed into, and the
    button is present under its primary id and can be clicked, the form
    is submitted without an exception, and the document the click is
    made on is the loaded one with each name given appended to the
    value of its field, the first name before the last name. *)
Theorem search_form_submits
    (site : Site) (first_name last_name : option string) (w : World) (d : Document) :
  site_get site search_url = Ok d ->
  first_match (CSS_input_type "text") (doc_inputs d) <> None ->
  (Py.truthy first_name = true -> ready first_name_id d = true) ->
  (Py.truthy last_name = true -> ready last_name_id d = true) ->
  ready search_button_id d = true ->
  exists (w' : World) (button : nat),
    first_match (By_ID search_button_id) (doc_inputs d) = Some button
    /\ submit_search_form site first_name last_name w = (w', Ok tt)
    /\ w_doc w'
       = site_click site button
           (fill last_name last_name_id (fill first_name first_name_id d)).
Proof.
  intros Hget Hwait Hfirst Hlast Hbutton.
  destruct (ready_found _ _ Hbutton) as (ib & eb & Hfm & _).
  set (w1 := put "Filling out search form..."
               (put "Page loaded successfully"
                  (emit (EWait 20)
                     (put "Waiting for page to load..."
                        (emit (EGet search_url) (with_doc d w)))))).
  destruct (field_block first_name first_name_id (CSS_input_id_contains "FirstName")
              "Entered first name: " w1 Hfirst) as (w2 & Hrun2 & Hdoc2).
  assert (Hlast2 : Py.truthy last_name = true -> ready last_name_id (w_doc w2) = true).
  { intros Ht. rewrite Hdoc2, ready_fill. by apply Hlast. }
  destruct (field_block last_name last_name_id (CSS_input_id_contains "LastName")
              "Entered last name: " w2 Hlast2) as (w3 & Hrun3 & Hdoc3).
  assert (Hbutton3 : ready search_button_id (w_doc w3) = true).
  { by rewrite Hdoc3, ready_fill, Hdoc2, ready_fill. }
  destruct (ready_found _ _ Hbutton3) as (ib3 & eb3 & Hfm3 & Hlk3 & Hint3).
  assert (ib3 = ib) as ->.
  { rewrite Hdoc3, first_match_fill, Hdoc2, first_match_fill in Hfm3.
    simpl in Hfm3. congruence. }
  exists (put "Clicked search button"
            (emit (EClick (el_id eb3)) (with_doc (site_click site ib (w_doc w3)) w3))),
    ib.
  split; [done|]. split; [|simpl; by rewrite Hdoc3, Hdoc2].
  unfold submit_search_form.
  erewrite bind_ok; [|unfold driver_get; by rewrite Hget].
  erewrite bind_ok; [|reflexivity].
  erewrite bind_ok;
    [|apply try_except_ok; unfold bind, wait_presence, print; simpl;
      destruct (first_match (CSS_input_type "text") (doc_inputs d)); [reflexivity|done]].
  erewrite bind_ok; [|reflexivity].
  apply try_except_ok. fold w1.
  erewrite bind_ok; [|exact Hrun2].
  erewrite bind_ok; [|exact Hrun3].
  unfold bind, find_element, element_truthy, click, print, ret, WebElement.
  rewrite Hfm3. cbv beta iota zeta delta [negb]. rewrite Hlk3, Hint3. reflexivity.
Qed.

Lemma search_form_submits_witness :
  exists (w' : World) (button : nat),
    first_match (By_ID search_button_id) (doc_inputs Sample.form) = Some button
    /\ submit_search_form Sample.site (Some "John") None Sample.world = (w', Ok tt)
    /\ w_doc w'
       = site_click Sample.site button
           (fill None last_name_id (fill (Some "John") first_name_id Sample.form)).
Proof.
  apply (search_form_submits Sample.site (Some "John") None Sample.world Sample.form).
  - reflexivity.
  - simpl. discriminate.
  - reflexivity.
  - simpl. discriminate.
  - reflexivity.
Defined.

(** The first-name field as the click finds it. *)
Example first_name_field_filled :
  doc_inputs (fill (Some "John") first_name_id Sample.form) !! 0
  = Some (Sample.input first_name_id "text" "John").
Proof. reflexivity. Qed.

(** ** The whole run *)

Lemma try_finally_quit {A} (m : M A) (w : World) :
  try_finally m driver_quit w
  = (emit EQuit (with_windows [] (fst (m w))), snd (m w)).
Proof. unfold try_finally, driver_quit. by destruct (m w). Qed.

(** X7.  Once the browser is launched, [main] always ends by quitting it:
    the last call is [driver.quit()] and no window is left, whether the
    search and the downloads end normally or not.  When the search raises,
    [main] raises the same exception after quitting, and nothing is
    downloaded in between. *)
Theorem main_always_quits (site : Site) (w : World) (win : Window) :
  site_launch site = Ok win ->
  let w0 := put "Searching for SEI filings for John Smith..."
              (with_focus (win_handle win) (with_windows [win] w)) in
  head (w_trace (fst (main site w))) = Some EQuit
  /\ w_windows (fst (main site w)) = []
  /\ (forall (w1 : World) (e : exn),
        search_sei site (Some "John") (Some "Smith") None None w0 = (w1, Raise e) ->
        main site w = (emit EQuit (with_windows [] w1), Raise e)).
Proof.
  intros Hlaunch w0.
  set (body :=
         (results <- search_sei site (Some "John") (Some "Smith") None None ;;
          match results with
          | _ :: _ =>
              print ("Found " +:+ Py.str_of_nat (length results) +:+ " results.") ;;
              download_sei_pdfs site results "sei_pdfs"
          | [] => print "No results found."
          end) : M unit).
  assert (Hmain : main site w
                  = (emit EQuit (with_windows [] (fst (body w0))), snd (body w0))).
  { unfold main, setup_driver, webdriver_Chrome.
    unfold bind at 1. rewrite Hlaunch, try_finally_quit. reflexivity. }
  rewrite Hmain. split; [reflexivity|]. split; [reflexivity|].
  intros w1 e Hsearch. unfold body, bind. by rewrite Hsearch.
Qed.

Lemma main_always_quits_witness :
  let w0 := put "Searching for SEI filings for John Smith..."
              (with_focus "W0"
                 (with_windows [ {| win_handle := "W0"; win_url := "data:," |} ]
                    Sample.world)) in
  head (w_trace (fst (main Sample2.site_blank Sample.world))) = Some EQuit
  /\ w_windows (fst (main Sample2.site_blank Sample.world)) = []
  /\ (forall (w1 : World) (e : exn),
        search_sei Sample2.site_blank (Some "John") (Some "Smith") None None w0
        = (w1, Raise e) ->
        main Sample2.site_blank Sample.world
        = (emit EQuit (with_windows [] w1), Raise e)).
Proof.
  apply (main_always_quits Sample2.site_blank Sample.world
           {| win_handle := "W0"; win_url := "data:," |}).
  reflexivity.
Defined.

(** The run on the page without text input: the timeout leaves [main]
    after the browser quit. *)
Example main_on_blank_page :
  snd (main Sample2.site_blank Sample.world) = Raise (Exn TimeoutException "Message: ")
  /\ w_trace (fst (main Sample2.site_blank Sample.world))
     = [EQuit; EScreenshot "debug_screenshot.png"; EWait 20; EGet search_url].
Proof. vm_compute. split; reflexivity. Qed.

(** When the browser cannot be launched, [main] raises the failure
    of the launch and does nothing else: no page is loaded, nothing is
    printed, and [driver.quit()] is not called, the [try] not being
    entered. *)
Theorem main_without_browser (site : Site) (w : World) (e : exn) :
  site_launch site = Raise e ->
  main site w = (w, Raise e).
Proof.
  intros Hlaunch. unfold main, setup_driver, webdriver_Chrome.
  unfold bind at 1. by rewrite Hlaunch.
Qed.

Lemma main_without_browser_witness :
  main {| site_launch := Raise (Exn WebDriverException "Message: session not created");
          site_get := site_get Sample.site;
          site_click := site_click Sample.site;
          site_script := site_script Sample.site;
          site_http := site_http Sample.site;
          site_open_wb := site_open_wb Sample.site;
          site_makedirs := site_makedirs Sample.site |} Sample.world
  = (Sample.world, Raise (Exn WebDriverException "Message: session not created")).
Proof.
  apply (main_without_browser _ Sample.world
           (Exn WebDriverException "Message: session not created")).
  reflexivity.
Defined.

(** ** The download loop, further *)

Ltac case_goal :=
  match goal with
  | |- context [match ?x with _ => _ end] =>
      lazymatch x with
      | context [match _ with _ => _ end] => fail
      | _ => destruct x eqn:?
      end
  end.

Ltac run_goal :=
  repeat first
    [ progress cbn [fst snd w_doc w_windows w_focus w_files w_dirs w_stdout w_trace
                    emit put with_doc with_windows with_focus with_files with_dirs
                    scripts_run app]
    | case_goal ].

Ltac unfold_download :=
  unfold download_step, try_except, download_one, when, bind, execute_script, sleep,
    window_handles, switch_to_window, current_url, requests_get, write_file, print,
    driver_close, ret.

Lemma download_step_frame
    (site : Site) (output_dir : string) (result : ResultRecord) (w : World) :
  let w' := fst (download_step site output_dir result w) in
  w_dirs w' = w_dirs w
  /\ (w_files w' = w_files w
      \/ exists body : list Byte.byte,
           w_files w' = <[record_path output_dir result := body]> (w_files w)).
Proof.
  unfold record_path. unfold_download. run_goal;
    (split; [reflexivity|]);
    first [ left; reflexivity | right; eexists; reflexivity ].
Qed.

Lemma download_step_scripts
    (site : Site) (output_dir : string) (result : ResultRecord) (w : World) :
  scripts_run (w_trace (fst (download_step site output_dir result w)))
  = (if has_script result then [script_of result] else [])
    ++ scripts_run (w_trace w).
Proof.
  unfold has_script, script_of. unfold_download. run_goal; reflexivity.
Qed.

Lemma download_step_no_makedirs
    (site : Site) (output_dir : string) (result : ResultRecord) (w : World)
    (p : string) :
  In (EMakedirs p) (w_trace (fst (download_step site output_dir result w))) ->
  In (EMakedirs p) (w_trace w).
Proof.
  unfold_download. run_goal; simpl; intuition discriminate.
Qed.

Lemma loop_frame
    (site : Site) (output_dir : string) (results : list ResultRecord) (w : World) :
  let w' := fold_left (fun w r => fst (download_step site output_dir r w)) results w in
  w_dirs w' = w_dirs w
  /\ (forall p : string, In (EMakedirs p) (w_trace w') -> In (EMakedirs p) (w_trace w))
  /\ (forall p : string,
        (forall r, In r results -> p <> record_path output_dir r) ->
        w_files w' !! p = w_files w !! p).
Proof.
  revert w. induction results as [|r rs IH]; intros w; [done|].
  simpl. destruct (IH (fst (download_step site output_dir r w)))
    as (Hdirs & Hmk & Hfiles).
  destruct (download_step_frame site output_dir r w) as (Hdirs1 & Hfiles1).
  split; [by rewrite Hdirs|]. split.
  - intros p Hin. by apply (download_step_no_makedirs site output_dir r w), Hmk.
  - intros p Hp. rewrite Hfiles by (intros r' Hr'; apply Hp; by right).
    destruct Hfiles1 as [-> | [body ->]]; [done|].
    apply lookup_insert_ne. intros Heq. by apply (Hp r); [left|].
Qed.

Lemma loop_scripts
    (site : Site) (output_dir : string) (results : list ResultRecord) (w : World) :
  scripts_run
    (w_trace (fold_left (fun w r => fst (download_step site output_dir r w)) results w))
  = rev (map script_of (List.filter has_script results)) ++ scripts_run (w_trace w).
Proof.
  revert w. induction results as [|r rs IH]; intros w; [done|].
  simpl. rewrite IH, download_step_scripts.
  destruct (has_script r); simpl; [|done]. by rewrite <- app_assoc.
Qed.

(** X8.  The loop runs the script of every record whose link starts
    with [javascript:], once each and in the order of the list, and no
    other script, whatever happens to the records before: the scripts
    executed during the loop are the stripped links of these records. *)
Theorem every_script_runs_once
    (site : Site) (output_dir : string) (results : list ResultRecord) (w : World) :
  scripts_run (w_trace (fst (for_each results (download_step site output_dir) w)))
  = rev (map script_of (List.filter has_script results)) ++ scripts_run (w_trace w)
  /\ (snd (download_sei_pdfs site results output_dir w) = Ok tt ->
      scripts_run (w_trace (fst (download_sei_pdfs site results output_dir w)))
      = rev (map script_of (List.filter has_script results))
        ++ scripts_run (w_trace w)).
Proof.
  split; [rewrite for_each_download; apply loop_scripts|].
  unfold download_sei_pdfs, bind, os_path_exists, when, os_makedirs, ret.
  destruct (negb _).
  - destruct (site_makedirs site output_dir) as [e|]; simpl; [done|].
    intros _. rewrite for_each_download. simpl. by rewrite loop_scripts.
  - intros _. rewrite for_each_download. simpl. by rewrite loop_scripts.
Qed.

(** The scripts of the sample listing, the newest first, on a site whose
    requests all fail. *)
Example scripts_on_site_down :
  scripts_run
    (w_trace (fst (for_each [Sample.smith; Sample.plain_link; Sample.jones]
                     (download_step Sample.site_down "sei_pdfs") Sample.world)))
  = ["viewSEI('456')"; "viewSEI('123')"].
Proof. vm_compute. reflexivity. Qed.

(** X9.  Of the files, [download_sei_pdfs] can change only those at the
    paths derived from the records given: every other path holds after
    the run what it held before. *)
Theorem download_touches_only_derived_paths
    (site : Site) (output_dir : string) (results : list ResultRecord) (w : World)
    (p : string) :
  (forall r, In r results -> p <> record_path output_dir r) ->
  w_files (fst (download_sei_pdfs site results output_dir w)) !! p = w_files w !! p.
Proof.
  unfold download_sei_pdfs, bind, os_path_exists, when, os_makedirs, ret.
  destruct (negb _).
  - destruct (site_makedirs site output_dir) as [e|]; [done|].
    rewrite for_each_download. simpl.
    destruct (loop_frame site output_dir results
                (emit (EMakedirs output_dir)
                   (with_dirs ({[output_dir]} ∪ w_dirs w) w)))
      as (_ & _ & Hfiles).
    exact (Hfiles p).
  - rewrite for_each_download. simpl.
    destruct (loop_frame site output_dir results w) as (_ & _ & Hfiles).
    exact (Hfiles p).
Qed.

Lemma download_touches_only_derived_paths_witness :
  w_files (fst (download_sei_pdfs Sample.site [Sample.smith; Sample.jones] "sei_pdfs"
                  Sample.world)) !! "sei_pdfs/notes.txt"
  = w_files Sample.world !! "sei_pdfs/notes.txt".
Proof.
  apply (download_touches_only_derived_paths Sample.site "sei_pdfs"
           [Sample.smith; Sample.jones] Sample.world "sei_pdfs/notes.txt").
  intros r [<-|[<-|[]]]; vm_compute; discriminate.
Defined.

(** X10.  [download_sei_pdfs] creates the output directory when neither a
    directory nor a file of that name exists, and only then.  When the
    name exists, [os.makedirs] is not called and the run does not raise;
    when it does not exist and is created, the run does not raise and the
    directory is there afterwards; when the creation fails, its exception
    leaves [download_sei_pdfs] at once: no record is processed. *)
Theorem output_directory
    (site : Site) (output_dir : string) (results : list ResultRecord) (w : World) :
  let run := download_sei_pdfs site results output_dir w in
  if bool_decide (output_dir ∈ w_dirs w)
     || bool_decide (is_Some (w_files w !! output_dir))
  then snd run = Ok tt
       /\ w_dirs (fst run) = w_dirs w
       /\ (forall p, In (EMakedirs p) (w_trace (fst run)) -> In (EMakedirs p) (w_trace w))
  else match site_makedirs site output_dir with
       | None =>
           snd run = Ok tt
           /\ w_dirs (fst run) = {[ output_dir ]} ∪ w_dirs w
           /\ output_dir ∈ w_dirs (fst run)
       | Some e => run = (emit (EMakedirs output_dir) w, Raise e)
       end.
Proof.
  unfold download_sei_pdfs, bind, os_path_exists, when, os_makedirs, ret.
  destruct (bool_decide _ || bool_decide _); simpl.
  - rewrite for_each_download. simpl.
    destruct (loop_frame site output_dir results w) as (Hdirs & Hmk & _).
    done.
  - destruct (site_makedirs site output_dir) as [e|]; [done|].
    rewrite for_each_download. simpl.
    destruct (loop_frame site output_dir results
                (emit (EMakedirs output_dir)
                   (with_dirs ({[output_dir]} ∪ w_dirs w) w)))
      as (Hdirs & _ & _).
    simpl in Hdirs. rewrite Hdirs. split; [done|]. split; [done|].
    apply elem_of_union_l, elem_of_singleton. reflexivity.
Qed.

(** On a site where the directory cannot be created, nothing is run. *)
Example read_only_run :
  download_sei_pdfs Sample2.site_read_only [Sample.smith; Sample.jones] "sei_pdfs"
    Sample.world
  = (emit (EMakedirs "sei_pdfs") Sample.world,
     Raise (Exn OSError "[Errno 13] Permission denied")).
Proof. vm_compute. reflexivity. Qed.

(** X11.  A record that is downloaded: the calls are, in this order, the
    script, the pause, the switch to the window of the second handle, the
    request for the URL that window shows, the opening of the file, the
    closing of that window and the switch to the window of the first
    handle.  The file at the derived path holds the body of the response
    as it came, the other files are as before, the download is reported,
    and the windows beyond the second stay open, unless they bear the
    handle of the second. *)
Theorem download_calls_in_order
    (site : Site) (output_dir : string) (result : ResultRecord) (w : World)
    (W0 W1 : Window) (rest : list Window) (resp : Response) :
  has_script result = true ->
  site_script site (script_of result) (w_windows w) = (W0 :: W1 :: rest, None) ->
  win_handle W0 <> win_handle W1 ->
  site_http site (win_url W1) = Ok resp ->
  status_code resp = 200 ->
  site_open_wb site (record_path output_dir result) = None ->
  exists w' : World,
    download_step site output_dir result w = (w', Ok tt)
    /\ w_trace w'
       = ESwitch (win_handle W0) :: EClose (win_handle W1)
           :: EOpenWb (record_path output_dir result) :: EHttpGet (win_url W1)
           :: ESwitch (win_handle W1) :: ESleep 3 :: EScript (script_of result)
           :: w_trace w
    /\ w_files w' !! record_path output_dir result = Some (content resp)
    /\ (forall p, p <> record_path output_dir result -> w_files w' !! p = w_files w !! p)
    /\ w_stdout w' = ("Downloaded: " +:+ record_path output_dir result) :: w_stdout w
    /\ w_windows w'
       = W0 :: List.filter
                 (fun x => negb (String.eqb (win_handle x) (win_handle W1))) rest.
Proof.
  intros Hpre Hscript Hne Hhttp Hstatus Hopen.
  exists (after_fetch output_dir result W0 W1 rest resp w). split.
  - apply download_step_fetch; try done.
  - unfold after_fetch, record_path. simpl. rewrite Hstatus. simpl.
    split; [done|]. split; [apply lookup_insert_eq|].
    split; [|done]. intros p Hp. by apply lookup_insert_ne.
Qed.

Lemma download_calls_in_order_witness :
  exists w' : World,
    download_step Sample.site "sei_pdfs" Sample.smith Sample.world = (w', Ok tt)
    /\ w_trace w'
       = ESwitch "W0" :: EClose "W1"
           :: EOpenWb (record_path "sei_pdfs" Sample.smith)
           :: EHttpGet "https://www.ethics.webapps.ms.gov/viewSEI('123')"
           :: ESwitch "W1" :: ESleep 3 :: EScript (script_of Sample.smith)
           :: w_trace Sample.world
    /\ w_files w' !! record_path "sei_pdfs" Sample.smith
       = Some (content (Sample.pdf Byte.x01))
    /\ (forall p, p <> record_path "sei_pdfs" Sample.smith ->
                  w_files w' !! p = w_files Sample.world !! p)
    /\ w_stdout w'
       = ("Downloaded: " +:+ record_path "sei_pdfs" Sample.smith)
           :: w_stdout Sample.world
    /\ w_windows w'
       = {| win_handle := "W0"; win_url := "data:," |}
           :: List.filter (fun x => negb (String.eqb (win_handle x) "W1")) [].
Proof.
  apply (download_calls_in_order Sample.site "sei_pdfs" Sample.smith Sample.world
           {| win_handle := "W0"; win_url := "data:," |}
           {| win_handle := "W1";
              win_url := "https://www.ethics.webapps.ms.gov/viewSEI('123')" |}
           [] (Sample.pdf Byte.x01)).
  - reflexivity.
  - reflexivity.
  - simpl. discriminate.
  - reflexivity.
  - reflexivity.
  - reflexivity.
Defined.

(** ** The script and the path of a record *)

Lemma prefix_nil (s : string) : String.prefix "" s = true.
Proof. by destruct s. Qed.

Lemma prefix_app (p s : string) : String.prefix p (p +:+ s) = true.
Proof.
  induction p as [|c p IH]; simpl; [apply prefix_nil|].
  destruct (ascii_dec c c); [exact IH | done].
Qed.

Lemma replace_from_skip (old new p s : string) :
  Py.replace_from old new (String.length p) (p +:+ s)
  = Py.replace_from old new 0 s.
Proof. induction p as [|c p IH]; simpl; [done | exact IH]. Qed.

Lemma replace_from_absent (old new s : string) :
  Py.contains s old = false -> Py.replace_from old new 0 s = s.
Proof.
  induction s as [|c s IH]; [done|].
  cbn [Py.contains Py.replace_from]. intros Hc.
  apply orb_false_iff in Hc as [Hp Hc]. rewrite Hp. by rewrite IH.
Qed.

(** X12.  For a link made of [javascript:] followed by a text in which
    [javascript:] does not occur again, the record has a script and the
    script executed is that text, unchanged. *)
Theorem script_is_link_without_prefix (result : ResultRecord) (body : string) :
  link result = "javascript:" +:+ body ->
  Py.contains body "javascript:" = false ->
  has_script result = true /\ script_of result = body.
Proof.
  intros Hlink Hbody. unfold has_script, script_of, Py.startswith. rewrite Hlink.
  split; [apply prefix_app|].
  unfold Py.replace.
  change (Py.replace_from "javascript:" "" 0 ("javascript:" +:+ body))
    with (if String.prefix "javascript:" ("javascript:" +:+ body)
          then "" +:+ Py.replace_from "javascript:" ""
                        (String.length "avascript:") ("avascript:" +:+ body)
          else String "j" (Py.replace_from "javascript:" "" 0 ("avascript:" +:+ body))).
  rewrite prefix_app, replace_from_skip. simpl. by apply replace_from_absent.
Qed.

Lemma script_is_link_without_prefix_witness :
  has_script Sample.smith = true /\ script_of Sample.smith = "viewSEI('123')".
Proof.
  apply (script_is_link_without_prefix Sample.smith "viewSEI('123')"); reflexivity.
Defined.

Lemma prefix_char (a c : ascii) (s : string) :
  String.prefix (String a "") (String c s) = if ascii_dec a c then true else false.
Proof.
  cbn [String.prefix]. destruct (ascii_dec a c); [apply prefix_nil | done].
Qed.

Lemma derived_filename_head (result : ResultRecord) :
  Py.startswith (derived_filename result) "/" = Py.startswith (name result) "/".
Proof.
  unfold derived_filename, Py.startswith. rewrite replace_space.
  destruct (name result) as [|c s]; [reflexivity|].
  cbn [spaces_to_underscores].
  match goal with
  | |- context [String ?a ?x +:+ ?y] => change (String a x +:+ y) with (String a (x +:+ y))
  end.
  rewrite !prefix_char.
  destruct (Ascii.eqb c " ") eqn:Hc; [|reflexivity].
  apply Ascii.eqb_eq in Hc as ->. reflexivity.
Qed.

(** X13.  With the default output directory, the file of a record is
    [sei_pdfs/] followed by the derived filename, except when the name
    of the record starts with a slash: the path is then the derived
    filename alone, an absolute path outside the output directory. *)
Theorem record_path_default (result : ResultRecord) :
  record_path "sei_pdfs" result
  = if Py.startswith (name result) "/"
    then derived_filename result
    else "sei_pdfs/" +:+ derived_filename result.
Proof.
  unfold record_path, Py.path_join. rewrite derived_filename_head.
  destruct (Py.startswith (name result) "/"); reflexivity.
Qed.

(** A name that starts with a slash. *)
Example slash_path :
  record_path "sei_pdfs" Sample2.slash = "/tmp/x_y_Clerk.pdf".
Proof. reflexivity. Qed.
